(** * Smart parking controller (ESP32 / FreeRTOS): task and state coordination

    Shallow embedding of [src/main.cpp] and [include/config.h].

    Every FreeRTOS task body is one iteration of its [while(1)] loop, written
    in a small state-and-trace monad: the state is the block of global
    variables of [main.cpp], the trace is the ordered list of the calls the
    iteration makes (semaphore take and give, queue send and receive, loads
    and stores of the globals, servo, LCD, serial, network).  What the
    environment answers (queue receives, sensor samples, tick counts, the
    outcome of a timed semaphore take) is an argument of the iteration.

    Pictographs inside the string literals of the Telegram messages are left
    out of the literals; backslash escapes of the C++ literals are kept as
    written. *)

From Stdlib Require Import ZArith List String Bool Lia.
From Stdlib Require Import Floats.SpecFloat.
Import ListNotations.
Local Open Scope string_scope.
Local Open Scope list_scope.
Local Open Scope Z_scope.

(** ** Machine integers and floats *)

Module Machine.

(** [int] of the ESP32 tool chain: 32 bits, two's complement. *)
Definition INT_MIN : Z := - 2 ^ 31.
Definition INT_MAX : Z := 2 ^ 31 - 1.

Definition wrap_int (z : Z) : Z := (z + 2 ^ 31) mod 2 ^ 32 - 2 ^ 31.

(** [unsigned long] and [TickType_t]: 32 bits, arithmetic modulo 2^32. *)
Definition wrap_u32 (z : Z) : Z := z mod 2 ^ 32.
Definition u32_sub (a b : Z) : Z := wrap_u32 (a - b).

(** [float]: IEEE 754 binary32. *)
Definition float := spec_float.
Definition prec32 : Z := 24.
Definition emax32 : Z := 128.

Definition isnan (f : float) : bool :=
  match f with S754_nan => true | _ => false end.

Definition fsub (a b : float) : float := SFsub prec32 emax32 a b.
Definition fabs (a : float) : float := SFabs a.
(** [a > b]; the code compares with the literals 0.5 and 2.0, which binary32
    holds exactly. *)
Definition fgt (a b : float) : bool := SFltb b a.

Definition float_of_Z (z : Z) : float := binary_normalize prec32 emax32 z 0 false.

(** The literals [0.5], [2.0], [0.0] and [-999]. *)
Definition f_half : float := S754_finite false 8388608 (-24).
Definition f_two : float := float_of_Z 2.
Definition f_zero : float := S754_zero false.
Definition f_m999 : float := float_of_Z (-999).

End Machine.
Import Machine.

(** ** config.h *)

Module Config.
Definition IR_ENTRY_PIN : Z := 18.
Definition IR_EXIT_PIN : Z := 19.
Definition GREEN_LED_PIN : Z := 26.
Definition RED_LED_PIN : Z := 27.
Definition TOTAL_PARKING_SLOTS : Z := 4.
Definition ENTRY_QUEUE_SIZE : Z := 5.
Definition EXIT_QUEUE_SIZE : Z := 5.
Definition LCD_QUEUE_SIZE : Z := 10.
End Config.

(** ** Synchronisation objects, globals and custom types of main.cpp *)

Inductive Mutex : Type :=
| slotsMutex | gateStatusMutex | lcdMutex | dhtMutex | timeMutex.

Inductive Queue : Type := entryQueue | exitQueue | lcdQueue.

Inductive EventType : Type :=
| EVENT_CAR_ENTRY | EVENT_CAR_EXIT | EVENT_GATE_OPEN | EVENT_GATE_CLOSE
| EVENT_PARKING_FULL.

Record SystemEvent : Type := { ev_type : EventType; ev_value : Z }.

Record LCDMessage : Type := { line1 : string; line2 : string }.

(** The block "Global Variables (Protected by Mutexes)". *)
Record Shared : Type := {
  availableSlots : Z;
  gateStatus : string;
  temperature : float;
  humidity : float;
  currentTime : string;
  currentDate : string;
  wifiConnected : bool;
  internetConnected : bool
}.

Inductive Global : Type :=
| G_availableSlots | G_gateStatus | G_temperature | G_humidity
| G_currentTime | G_currentDate | G_wifiConnected | G_internetConnected.

Inductive Value : Type :=
| VInt (z : Z) | VStr (s : string) | VFloat (f : float) | VBool (b : bool).

Inductive Timeout : Type := portMAX_DELAY | pdMS_TO_TICKS (ms : Z).

Inductive Item : Type := ItemEvent (e : SystemEvent) | ItemLcd (m : LCDMessage).

(** Text assembled with [String] concatenation: literal pieces, numbers
    rendered by [String(n)] and [String(f, digits)], and for the JSON of
    [handleData] a quoted key followed by a colon and a quoted string. *)
Inductive Piece : Type :=
| PText (s : string)
| PInt (z : Z)
| PFloat (f : float) (digits : Z)
| PKey (k : string)
| PQuoted (s : string).

Inductive Body : Type := BodyHtml | BodyText (ps : list Piece).

Inductive LcdOp : Type :=
| LcdClear
| LcdSetCursor (col row : Z)
| LcdPrintStr (s : string)
| LcdPrintInt (z : Z).

(** One call made by a task. *)
Inductive Action : Type :=
| ASemTake (m : Mutex) (t : Timeout) (ok : bool)
| ASemGive (m : Mutex)
| ALoad (g : Global)
| AStore (g : Global) (v : Value)
| AQueueReceive (q : Queue) (got : bool)
| AQueueSend (q : Queue) (it : Item)
| AServoWrite (angle : Z)
| ADelay (ms : Z)
| ASerial (fmt : string) (args : list Value)
| ADigitalRead (pin : Z)
| ADigitalWrite (pin : Z) (high : bool)
| ALcd (op : LcdOp)
| ADhtRead
| AMillis
| ATickCount
| AWifiStatus
| AWifiReconnect
| AHttpProbe
| AClockQuery
| ABotGetUpdates
| ABotSend (chat_id : string) (msg : list Piece)
| AServerSend (code : Z) (ctype : string) (b : Body).

Definition Trace : Type := list Action.

(** ** The task monad: global state threaded, calls recorded in order *)

Definition Task (A : Type) : Type := Shared -> A * Shared * Trace.

Definition ret {A} (a : A) : Task A := fun s => (a, s, []).

Definition bind {A B} (m : Task A) (k : A -> Task B) : Task B :=
  fun s =>
    let r1 := m s in
    let r2 := k (fst (fst r1)) (snd (fst r1)) in
    (fst (fst r2), snd (fst r2), snd r1 ++ snd r2).

Declare Scope task_scope.
Delimit Scope task_scope with task.
Notation "x <- m ;; k" := (bind m (fun x => k))
  (at level 61, m at next level, right associativity) : task_scope.
Notation "m ;; k" := (bind m (fun _ => k))
  (at level 61, right associativity) : task_scope.
Local Open Scope task_scope.

Definition emit (a : Action) : Task unit := fun s => (tt, s, [a]).

Definition when (b : bool) (m : Task unit) : Task unit :=
  if b then m else ret tt.

Definition result {A} (m : Task A) (s : Shared) : A := fst (fst (m s)).
Definition state_after {A} (m : Task A) (s : Shared) : Shared := snd (fst (m s)).
Definition trace_of {A} (m : Task A) (s : Shared) : Trace := snd (m s).

(** *** FreeRTOS and Arduino primitives *)

(** [xSemaphoreTake(m, portMAX_DELAY)] blocks until the mutex is obtained,
    so it returns [pdTRUE]; with a finite timeout the outcome [ok] is the
    environment's. *)
Definition xSemaphoreTake (m : Mutex) (t : Timeout) (ok : bool) : Task bool :=
  let r := match t with portMAX_DELAY => true | pdMS_TO_TICKS _ => ok end in
  emit (ASemTake m t r) ;; ret r.

Definition xSemaphoreGive (m : Mutex) : Task unit := emit (ASemGive m).

Definition xQueueReceive {A} (q : Queue) (rx : option A) : Task (option A) :=
  emit (AQueueReceive q (match rx with Some _ => true | None => false end)) ;;
  ret rx.

Definition xQueueSend (q : Queue) (it : Item) : Task unit := emit (AQueueSend q it).

Definition vTaskDelay (ms : Z) : Task unit := emit (ADelay ms).

Definition Serial_print (fmt : string) (args : list Value) : Task unit :=
  emit (ASerial fmt args).

Definition servo_write (angle : Z) : Task unit := emit (AServoWrite angle).

(** *** Loads and stores of the globals *)

Definition load {A} (g : Global) (proj : Shared -> A) : Task A :=
  fun s => (proj s, s, [ALoad g]).

Definition store (g : Global) (v : Value) (upd : Shared -> Shared) : Task unit :=
  fun s => (tt, upd s, [AStore g v]).

Definition set_availableSlots (v : Z) (s : Shared) : Shared :=
  {| availableSlots := v; gateStatus := gateStatus s;
     temperature := temperature s; humidity := humidity s;
     currentTime := currentTime s; currentDate := currentDate s;
     wifiConnected := wifiConnected s; internetConnected := internetConnected s |}.

Definition set_gateStatus (v : string) (s : Shared) : Shared :=
  {| availableSlots := availableSlots s; gateStatus := v;
     temperature := temperature s; humidity := humidity s;
     currentTime := currentTime s; currentDate := currentDate s;
     wifiConnected := wifiConnected s; internetConnected := internetConnected s |}.

Definition set_temperature (v : float) (s : Shared) : Shared :=
  {| availableSlots := availableSlots s; gateStatus := gateStatus s;
     temperature := v; humidity := humidity s;
     currentTime := currentTime s; currentDate := currentDate s;
     wifiConnected := wifiConnected s; internetConnected := internetConnected s |}.

Definition set_humidity (v : float) (s : Shared) : Shared :=
  {| availableSlots := availableSlots s; gateStatus := gateStatus s;
     temperature := temperature s; humidity := v;
     currentTime := currentTime s; currentDate := currentDate s;
     wifiConnected := wifiConnected s; internetConnected := internetConnected s |}.

Definition set_currentTime (v : string) (s : Shared) : Shared :=
  {| availableSlots := availableSlots s; gateStatus := gateStatus s;
     temperature := temperature s; humidity := humidity s;
     currentTime := v; currentDate := currentDate s;
     wifiConnected := wifiConnected s; internetConnected := internetConnected s |}.

Definition set_currentDate (v : string) (s : Shared) : Shared :=
  {| availableSlots := availableSlots s; gateStatus := gateStatus s;
     temperature := temperature s; humidity := humidity s;
     currentTime := currentTime s; currentDate := v;
     wifiConnected := wifiConnected s; internetConnected := internetConnected s |}.

Definition set_wifiConnected (v : bool) (s : Shared) : Shared :=
  {| availableSlots := availableSlots s; gateStatus := gateStatus s;
     temperature := temperature s; humidity := humidity s;
     currentTime := currentTime s; currentDate := currentDate s;
     wifiConnected := v; internetConnected := internetConnected s |}.

Definition set_internetConnected (v : bool) (s : Shared) : Shared :=
  {| availableSlots := availableSlots s; gateStatus := gateStatus s;
     temperature := temperature s; humidity := humidity s;
     currentTime := currentTime s; currentDate := currentDate s;
     wifiConnected := wifiConnected s; internetConnected := v |}.

Definition load_availableSlots : Task Z := load G_availableSlots availableSlots.
Definition load_gateStatus : Task string := load G_gateStatus gateStatus.
Definition load_temperature : Task float := load G_temperature temperature.
Definition load_humidity : Task float := load G_humidity humidity.
Definition load_currentTime : Task string := load G_currentTime currentTime.
Definition load_currentDate : Task string := load G_currentDate currentDate.
Definition load_wifiConnected : Task bool := load G_wifiConnected wifiConnected.
Definition load_internetConnected : Task bool :=
  load G_internetConnected internetConnected.

Definition store_availableSlots (v : Z) : Task unit :=
  store G_availableSlots (VInt v) (set_availableSlots v).
Definition store_gateStatus (v : string) : Task unit :=
  store G_gateStatus (VStr v) (set_gateStatus v).
Definition store_temperature (v : float) : Task unit :=
  store G_temperature (VFloat v) (set_temperature v).
Definition store_humidity (v : float) : Task unit :=
  store G_humidity (VFloat v) (set_humidity v).
Definition store_currentTime (v : string) : Task unit :=
  store G_currentTime (VStr v) (set_currentTime v).
Definition store_currentDate (v : string) : Task unit :=
  store G_currentDate (VStr v) (set_currentDate v).
Definition store_wifiConnected (v : bool) : Task unit :=
  store G_wifiConnected (VBool v) (set_wifiConnected v).
Definition store_internetConnected (v : bool) : Task unit :=
  store G_internetConnected (VBool v) (set_internetConnected v).

(** The initialisers of the globals, for a lot of [total] slots
    ([TOTAL_PARKING_SLOTS], 4 in config.h). *)
Definition initial (total : Z) : Shared :=
  {| availableSlots := total; gateStatus := "Closed";
     temperature := f_zero; humidity := f_zero;
     currentTime := "00:00:00"; currentDate := "2024/01/01";
     wifiConnected := false; internetConnected := false |}.

(** ** The tasks *)

Section Tasks.

(** [const int TOTAL_SLOTS = TOTAL_PARKING_SLOTS;] *)
Variable TOTAL_SLOTS : Z.

(** *** gateTask *)

(** The two guarded stores of [gateStatus]. *)
Definition set_gate (v : string) : Task unit :=
  ok <- xSemaphoreTake gateStatusMutex portMAX_DELAY true ;;
  when ok (store_gateStatus v ;; xSemaphoreGive gateStatusMutex).

(** Body of [if(xQueueReceive(entryQueue, ...) == pdTRUE)]. *)
Definition gate_entry : Task unit :=
  ok <- xSemaphoreTake slotsMutex portMAX_DELAY true ;;
  when ok
    (a <- load_availableSlots ;;
     if a >? 0 then
       a0 <- load_availableSlots ;;
       Serial_print "[Gate] ENTRY - Slots: %d/%d\n" [VInt a0; VInt TOTAL_SLOTS] ;;
       xSemaphoreGive slotsMutex ;;
       set_gate "Open" ;;
       xQueueSend lcdQueue
         (ItemLcd {| line1 := "Gate: OPEN"; line2 := "Entering..." |}) ;;
       Serial_print "  Opening barrier (0 degrees)..." [] ;;
       servo_write 0 ;;
       Serial_print "  Waiting 2 seconds for car passage..." [] ;;
       vTaskDelay 2000 ;;
       Serial_print "  Closing barrier (90 degrees)..." [] ;;
       servo_write 90 ;;
       set_gate "Closed" ;;
       ok2 <- xSemaphoreTake slotsMutex portMAX_DELAY true ;;
       when ok2
         (a1 <- load_availableSlots ;;
          store_availableSlots (wrap_int (a1 - 1)) ;;
          a2 <- load_availableSlots ;;
          Serial_print "  Entry complete! New slots: %d/%d\n"
            [VInt a2; VInt TOTAL_SLOTS] ;;
          a3 <- load_availableSlots ;;
          when (a3 =? 0) (Serial_print "  PARKING NOW FULL!" []) ;;
          xSemaphoreGive slotsMutex) ;;
       Serial_print EmptyString []
     else
       Serial_print "[Gate] PARKING FULL - Entry DENIED!\n" [] ;;
       xSemaphoreGive slotsMutex).

(** Body of [if(xQueueReceive(exitQueue, ...) == pdTRUE)]. *)
Definition gate_exit : Task unit :=
  Serial_print "[Gate] EXIT PROCESSING" [] ;;
  set_gate "Open" ;;
  xQueueSend lcdQueue
    (ItemLcd {| line1 := "Gate: OPEN"; line2 := "Exiting..." |}) ;;
  Serial_print "  Opening barrier (0 degrees)..." [] ;;
  servo_write 0 ;;
  Serial_print "  Waiting 2 seconds..." [] ;;
  vTaskDelay 2000 ;;
  Serial_print "  Closing barrier (90 degrees)..." [] ;;
  servo_write 90 ;;
  set_gate "Closed" ;;
  ok <- xSemaphoreTake slotsMutex portMAX_DELAY true ;;
  when ok
    (a <- load_availableSlots ;;
     when (a <? TOTAL_SLOTS)
       (a1 <- load_availableSlots ;;
        store_availableSlots (wrap_int (a1 + 1)) ;;
        a2 <- load_availableSlots ;;
        Serial_print "  Exit complete! New slots: %d/%d\n"
          [VInt a2; VInt TOTAL_SLOTS]) ;;
     xSemaphoreGive slotsMutex) ;;
  Serial_print EmptyString [].

(** One pass of the [while(1)] loop; [rx_entry] and [rx_exit] are what the
    two [xQueueReceive] calls deliver within their 10 ms. *)
Definition gateTask_iter (rx_entry rx_exit : option SystemEvent) : Task unit :=
  e <- xQueueReceive entryQueue rx_entry ;;
  match e with Some _ => gate_entry | None => ret tt end ;;
  x <- xQueueReceive exitQueue rx_exit ;;
  match x with Some _ => gate_exit | None => ret tt end ;;
  vTaskDelay 10.

(** The loop run over the successive receive outcomes. *)
Fixpoint gateTask (rxs : list (option SystemEvent * option SystemEvent))
  : Task unit :=
  match rxs with
  | [] => ret tt
  | (rx_entry, rx_exit) :: rest =>
      gateTask_iter rx_entry rx_exit ;; gateTask rest
  end.

(** *** ledTask *)

Definition ledTask_iter : Task unit :=
  ok <- xSemaphoreTake slotsMutex portMAX_DELAY true ;;
  when ok
    (a <- load_availableSlots ;;
     emit (ADigitalWrite Config.GREEN_LED_PIN (a >? 0)) ;;
     b <- load_availableSlots ;;
     emit (ADigitalWrite Config.RED_LED_PIN (negb (b >? 0))) ;;
     xSemaphoreGive slotsMutex) ;;
  vTaskDelay 100.

(** *** dhtTask *)

Record DhtLocals : Type := {
  lastTemp : float;
  lastHum : float;
  firstReading : bool
}.

Definition dht_locals0 : DhtLocals :=
  {| lastTemp := f_m999; lastHum := f_m999; firstReading := true |}.

(** [h] and [t] are what [dht.readHumidity()] and [dht.readTemperature()]
    return. *)
Definition dhtTask_iter (l : DhtLocals) (h t : float) : Task DhtLocals :=
  emit ADhtRead ;;
  emit ADhtRead ;;
  l' <- (if negb (isnan h) && negb (isnan t) then
           ok <- xSemaphoreTake dhtMutex portMAX_DELAY true ;;
           if ok then
             store_temperature t ;;
             store_humidity h ;;
             xSemaphoreGive dhtMutex ;;
             if firstReading l
                || fgt (fabs (fsub t (lastTemp l))) f_half
                || fgt (fabs (fsub h (lastHum l))) f_two
             then
               Serial_print "[DHT] Temp: %.1fC | Humidity: %.1f%%\n"
                 [VFloat t; VFloat h] ;;
               ret {| lastTemp := t; lastHum := h; firstReading := false |}
             else ret l
           else ret l
         else
           Serial_print "[DHT] Invalid reading - check wiring" [] ;;
           ret l) ;;
  vTaskDelay 2000 ;;
  ret l'.

(** *** lcdTask *)

(** [pdMS_TO_TICKS(500)] at the 1000 Hz tick of the platform. *)
Definition updateInterval : Z := 500.

Definition lcd (op : LcdOp) : Task unit := emit (ALcd op).

Definition xTaskGetTickCount (tick : Z) : Task Z :=
  emit ATickCount ;; ret (wrap_u32 tick).

(** The default rendering, under [lcdMutex]. *)
Definition lcd_default (time_ok : bool) : Task unit :=
  ok <- xSemaphoreTake lcdMutex portMAX_DELAY true ;;
  when ok
    (lcd LcdClear ;;
     lcd (LcdSetCursor 0 0) ;;
     timeStr <- (ok1 <- xSemaphoreTake timeMutex (pdMS_TO_TICKS 50) time_ok ;;
                 if ok1 then
                   v <- load_currentTime ;;
                   xSemaphoreGive timeMutex ;;
                   ret v
                 else ret EmptyString) ;;
     lcd (LcdPrintStr timeStr) ;;
     lcd (LcdPrintStr " ") ;;
     ok2 <- xSemaphoreTake slotsMutex portMAX_DELAY true ;;
     when ok2
       (a <- load_availableSlots ;;
        lcd (LcdPrintInt a) ;;
        xSemaphoreGive slotsMutex) ;;
     lcd (LcdPrintStr "/") ;;
     lcd (LcdPrintInt TOTAL_SLOTS) ;;
     lcd (LcdSetCursor 0 1) ;;
     lcd (LcdPrintStr "Gate:") ;;
     ok3 <- xSemaphoreTake gateStatusMutex portMAX_DELAY true ;;
     when ok3
       (g <- load_gateStatus ;;
        lcd (LcdPrintStr g) ;;
        xSemaphoreGive gateStatusMutex) ;;
     xSemaphoreGive lcdMutex).

(** The rendering of a directive taken from [lcdQueue]. *)
Definition lcd_priority (msg : LCDMessage) : Task unit :=
  ok <- xSemaphoreTake lcdMutex portMAX_DELAY true ;;
  when ok
    (lcd LcdClear ;;
     lcd (LcdSetCursor 0 0) ;;
     lcd (LcdPrintStr (line1 msg)) ;;
     lcd (LcdSetCursor 0 1) ;;
     lcd (LcdPrintStr (line2 msg)) ;;
     xSemaphoreGive lcdMutex).

(** [tick_cond] and [tick_set] are the tick counts read in the test and in
    the assignment of [lastUpdate]. *)
Definition lcdTask_iter (lastUpdate : Z) (rx : option LCDMessage)
    (tick_cond tick_set : Z) (time_ok : bool) : Task Z :=
  m <- xQueueReceive lcdQueue rx ;;
  lu <- match m with
        | Some msg =>
            lcd_priority msg ;;
            xTaskGetTickCount tick_set
        | None =>
            now <- xTaskGetTickCount tick_cond ;;
            if u32_sub now lastUpdate >=? updateInterval then
              lcd_default time_ok ;;
              xTaskGetTickCount tick_set
            else ret lastUpdate
        end ;;
  vTaskDelay 50 ;;
  ret lu.

(** *** Time functions and wifiTask *)

(** What the clock sources answer: [getLocalTime] and [strftime], the link
    state, and the time API with [sprintf]. *)
Record ClockSource : Type := {
  ntp_time : option string;
  ntp_date : option string;
  api_link : bool;
  api_time : option string;
  api_date : option string
}.

Definition getTimeFromAPI (c : ClockSource) : Task string :=
  emit AWifiStatus ;;
  if negb (api_link c) then ret "00:00:00"
  else
    emit AClockQuery ;;
    match api_time c with Some v => ret v | None => ret "00:00:00" end.

Definition getDateFromAPI (c : ClockSource) : Task string :=
  emit AWifiStatus ;;
  if negb (api_link c) then ret "2024/01/01"
  else
    emit AClockQuery ;;
    match api_date c with Some v => ret v | None => ret "2024/01/01" end.

Definition getCurrentTime (c : ClockSource) : Task string :=
  emit AClockQuery ;;
  match ntp_time c with Some v => ret v | None => getTimeFromAPI c end.

Definition getCurrentDate (c : ClockSource) : Task string :=
  emit AClockQuery ;;
  match ntp_date c with Some v => ret v | None => getDateFromAPI c end.

(** [link] is [WiFi.status() == WL_CONNECTED], [httpCode] the answer of the
    probe. *)
Definition checkInternetConnection (link : bool) (httpCode : Z) : Task bool :=
  emit AWifiStatus ;;
  if negb link then ret false
  else emit AHttpProbe ;; ret (httpCode =? 204).

(** [millis()]: the milliseconds since boot as an [unsigned long]. *)
Definition millis (elapsed_ms : Z) : Task Z :=
  emit AMillis ;; ret (wrap_u32 elapsed_ms).

Record WifiLocals : Type := { lastTimeUpdate : Z; lastWiFiCheck : Z }.

Record WifiEnv : Type := {
  w_elapsed_ms : Z;
  w_link : bool;
  w_probe_link : bool;
  w_probe_code : Z;
  w_clock : ClockSource;
  w_time_ok : bool
}.

Definition TIME_UPDATE_INTERVAL : Z := 5000.
Definition WIFI_CHECK_INTERVAL : Z := 10000.

Definition wifiTask_iter (l : WifiLocals) (e : WifiEnv) : Task WifiLocals :=
  now <- millis (w_elapsed_ms e) ;;
  lwc <- (if u32_sub now (lastWiFiCheck l) >=? WIFI_CHECK_INTERVAL then
            prevWiFi <- load_wifiConnected ;;
            emit AWifiStatus ;;
            store_wifiConnected (w_link e) ;;
            w1 <- load_wifiConnected ;;
            when (negb (Bool.eqb w1 prevWiFi))
              (w2 <- load_wifiConnected ;;
               if w2 then Serial_print "[WiFi] Connected!" []
               else
                 Serial_print "[WiFi] Disconnected! Reconnecting..." [] ;;
                 emit AWifiReconnect) ;;
            w3 <- load_wifiConnected ;;
            (if w3 then
               r <- checkInternetConnection (w_probe_link e) (w_probe_code e) ;;
               store_internetConnected r
             else store_internetConnected false) ;;
            ret now
          else ret (lastWiFiCheck l)) ;;
  ltu <- (if u32_sub now (lastTimeUpdate l) >=? TIME_UPDATE_INTERVAL then
            w <- load_wifiConnected ;;
            when w
              (newTime <- getCurrentTime (w_clock e) ;;
               newDate <- getCurrentDate (w_clock e) ;;
               ok <- xSemaphoreTake timeMutex (pdMS_TO_TICKS 100) (w_time_ok e) ;;
               when ok
                 (store_currentTime newTime ;;
                  store_currentDate newDate ;;
                  xSemaphoreGive timeMutex)) ;;
            ret now
          else ret (lastTimeUpdate l)) ;;
  vTaskDelay 1000 ;;
  ret {| lastTimeUpdate := ltu; lastWiFiCheck := lwc |}.

(** *** sensorTask *)

Record SensorLocals : Type := { entryDetected : bool; exitDetected : bool }.

(** The four [digitalRead] results of one pass; [true] is [HIGH]. *)
Record SensorEnv : Type := {
  entry_read1 : bool; entry_read2 : bool;
  exit_read1 : bool; exit_read2 : bool
}.

Definition sensorTask_iter (l : SensorLocals) (e : SensorEnv) : Task SensorLocals :=
  emit (ADigitalRead Config.IR_ENTRY_PIN) ;;
  ed <- (if negb (entry_read1 e) && negb (entryDetected l) then
           xQueueSend entryQueue
             (ItemEvent {| ev_type := EVENT_CAR_ENTRY; ev_value := 1 |}) ;;
           Serial_print "\n[Sensor] CAR DETECTED AT ENTRY!" [] ;;
           vTaskDelay 100 ;;
           ret true
         else ret (entryDetected l)) ;;
  emit (ADigitalRead Config.IR_ENTRY_PIN) ;;
  let ed' := if entry_read2 e then false else ed in
  emit (ADigitalRead Config.IR_EXIT_PIN) ;;
  xd <- (if negb (exit_read1 e) && negb (exitDetected l) then
           xQueueSend exitQueue
             (ItemEvent {| ev_type := EVENT_CAR_EXIT; ev_value := 1 |}) ;;
           Serial_print "\n[Sensor] CAR DETECTED AT EXIT!" [] ;;
           vTaskDelay 100 ;;
           ret true
         else ret (exitDetected l)) ;;
  emit (ADigitalRead Config.IR_EXIT_PIN) ;;
  let xd' := if exit_read2 e then false else xd in
  vTaskDelay 50 ;;
  ret {| entryDetected := ed'; exitDetected := xd' |}.

(** *** telegramTask *)

(** One received message; [tg_time_ok] is the outcome of the 50 ms take of
    [timeMutex] its handling may make. *)
Record TgMessage : Type := {
  chat_id : string;
  text : string;
  tg_time_ok : bool
}.

Definition bot_sendMessage (chat : string) (msg : list Piece) : Task unit :=
  emit (ABotSend chat msg).

(** Body of the [for] loop of [telegramTask]. *)
Definition telegram_command (m : TgMessage) : Task unit :=
  Serial_print "[Telegram] Received command: %s\n" [VStr (text m)] ;;
  if String.eqb (text m) "/start" then
    bot_sendMessage (chat_id m)
      [PText "* FreeRTOS Parking System*\n\n";
       PText "Available Commands:\n";
       PText "/status - Parking status\n";
       PText "/time - Date & Time\n";
       PText "/temp - Temperature\n";
       PText "/all - Complete info"]
  else if String.eqb (text m) "/status" then
    ok <- xSemaphoreTake slotsMutex portMAX_DELAY true ;;
    ps <- (if ok then
             a <- load_availableSlots ;;
             b <- load_availableSlots ;;
             xSemaphoreGive slotsMutex ;;
             ret [PText "Available: "; PInt a; PText "/"; PInt TOTAL_SLOTS;
                  PText (if b =? 0 then "  FULL" else " ")]
           else ret []) ;;
    bot_sendMessage (chat_id m) (PText "* Parking Status*\n\n" :: ps)
  else if String.eqb (text m) "/time" then
    ok <- xSemaphoreTake timeMutex (pdMS_TO_TICKS 50) (tg_time_ok m) ;;
    ps <- (if ok then
             d <- load_currentDate ;;
             t <- load_currentTime ;;
             xSemaphoreGive timeMutex ;;
             ret [PText " "; PText d; PText "\n"; PText " "; PText t]
           else ret []) ;;
    bot_sendMessage (chat_id m) (PText "* Date & Time*\n\n" :: ps)
  else if String.eqb (text m) "/temp" then
    ok <- xSemaphoreTake dhtMutex portMAX_DELAY true ;;
    ps <- (if ok then
             t <- load_temperature ;;
             h <- load_humidity ;;
             xSemaphoreGive dhtMutex ;;
             ret [PText "Temperature: "; PFloat t 1; PText "C\n";
                  PText "Humidity: "; PFloat h 1; PText "%"]
           else ret []) ;;
    bot_sendMessage (chat_id m) (PText "* Environment*\n\n" :: ps)
  else if String.eqb (text m) "/all" then
    ok1 <- xSemaphoreTake timeMutex (pdMS_TO_TICKS 50) (tg_time_ok m) ;;
    p1 <- (if ok1 then
             d <- load_currentDate ;;
             t <- load_currentTime ;;
             xSemaphoreGive timeMutex ;;
             ret [PText " "; PText d; PText " "; PText t; PText "\n\n"]
           else ret []) ;;
    ok2 <- xSemaphoreTake slotsMutex portMAX_DELAY true ;;
    p2 <- (if ok2 then
             a <- load_availableSlots ;;
             xSemaphoreGive slotsMutex ;;
             ret [PText " Parking: "; PInt a; PText "/"; PInt TOTAL_SLOTS;
                  PText "\n"]
           else ret []) ;;
    ok3 <- xSemaphoreTake dhtMutex portMAX_DELAY true ;;
    p3 <- (if ok3 then
             t <- load_temperature ;;
             h <- load_humidity ;;
             xSemaphoreGive dhtMutex ;;
             ret [PText " Temp: "; PFloat t 1; PText "C\n";
                  PText " Humidity: "; PFloat h 1; PText "%"]
           else ret []) ;;
    bot_sendMessage (chat_id m)
      (PText "* Complete Status*\n\n" :: p1 ++ p2 ++ p3)
  else ret tt.

Fixpoint telegram_commands (ms : list TgMessage) : Task unit :=
  match ms with
  | [] => ret tt
  | m :: rest => telegram_command m ;; telegram_commands rest
  end.

(** One pass of the loop; [ms] are the messages [bot.getUpdates] brings. *)
Definition telegramTask_iter (ms : list TgMessage) : Task unit :=
  emit ABotGetUpdates ;;
  telegram_commands ms ;;
  vTaskDelay 1000.

(** *** Web server *)

(** [elapsed_ms]: the time since boot when [millis()] is called. *)
Definition handleData (time_ok : bool) (elapsed_ms : Z) : Task unit :=
  ok1 <- xSemaphoreTake slotsMutex portMAX_DELAY true ;;
  p1 <- (if ok1 then
           a <- load_availableSlots ;;
           b <- load_availableSlots ;;
           xSemaphoreGive slotsMutex ;;
           ret [PKey "available"; PInt a; PText ",";
                PKey "occupied"; PInt (wrap_int (TOTAL_SLOTS - b)); PText ","]
         else ret []) ;;
  ok2 <- xSemaphoreTake gateStatusMutex portMAX_DELAY true ;;
  p2 <- (if ok2 then
           g <- load_gateStatus ;;
           xSemaphoreGive gateStatusMutex ;;
           ret [PKey "gate"; PQuoted g; PText ","]
         else ret []) ;;
  ok3 <- xSemaphoreTake dhtMutex portMAX_DELAY true ;;
  p3 <- (if ok3 then
           t <- load_temperature ;;
           h <- load_humidity ;;
           xSemaphoreGive dhtMutex ;;
           ret [PKey "temperature"; PFloat t 1; PText ",";
                PKey "humidity"; PFloat h 1; PText ","]
         else ret []) ;;
  ok4 <- xSemaphoreTake timeMutex (pdMS_TO_TICKS 50) time_ok ;;
  p4 <- (if ok4 then
           t <- load_currentTime ;;
           d <- load_currentDate ;;
           xSemaphoreGive timeMutex ;;
           ret [PKey "time"; PQuoted t; PText ",";
                PKey "date"; PQuoted d; PText ","]
         else ret []) ;;
  w <- load_wifiConnected ;;
  i <- load_internetConnected ;;
  ms <- millis elapsed_ms ;;
  emit (AServerSend 200 "application/json"
          (BodyText
             (PText "{" :: p1 ++ p2 ++ p3 ++ p4 ++
              [PKey "wifi"; PText (if w then "true" else "false"); PText ",";
               PKey "internet"; PText (if i then "true" else "false"); PText ",";
               PKey "uptime"; PInt (ms / 1000);
               PText "}"]))).

(** One pass of [webServerTask]: [server.handleClient()] serves the pending
    request, if any, through the routes registered in [setup]. *)
Definition webServerTask_iter (req : option string) (time_ok : bool)
    (elapsed_ms : Z) : Task unit :=
  match req with
  | None => ret tt
  | Some uri =>
      if String.eqb uri "/" then emit (AServerSend 200 "text/html" BodyHtml)
      else if String.eqb uri "/data" then handleData time_ok elapsed_ms
      else emit (AServerSend 404 "text/plain" (BodyText [PText uri]))
  end ;;
  vTaskDelay 10.

(** *** The eight workers *)

(** One pass of one worker's loop, with what the environment answers. *)
Inductive Job : Type :=
| JobWifi (l : WifiLocals) (e : WifiEnv)
| JobSensor (l : SensorLocals) (e : SensorEnv)
| JobGate (rx_entry rx_exit : option SystemEvent)
| JobLed
| JobDht (l : DhtLocals) (h t : float)
| JobLcd (lastUpdate : Z) (rx : option LCDMessage) (tick_cond tick_set : Z)
         (time_ok : bool)
| JobWeb (req : option string) (time_ok : bool) (elapsed_ms : Z)
| JobTelegram (ms : list TgMessage).

Definition run_job (j : Job) : Task unit :=
  match j with
  | JobWifi l e => wifiTask_iter l e ;; ret tt
  | JobSensor l e => sensorTask_iter l e ;; ret tt
  | JobGate rx_entry rx_exit => gateTask_iter rx_entry rx_exit
  | JobLed => ledTask_iter
  | JobDht l h t => dhtTask_iter l h t ;; ret tt
  | JobLcd lu rx tc ts ok => lcdTask_iter lu rx tc ts ok ;; ret tt
  | JobWeb req ok ms => webServerTask_iter req ok ms
  | JobTelegram ms => telegramTask_iter ms
  end.

(** Passes of the workers run one after the other, in any order. *)
Fixpoint run_jobs (js : list Job) : Task unit :=
  match js with
  | [] => ret tt
  | j :: rest => run_job j ;; run_jobs rest
  end.

Definition is_lcd_job (j : Job) : bool :=
  match j with JobLcd _ _ _ _ _ => true | _ => false end.

Definition is_gate_job (j : Job) : bool :=
  match j with JobGate _ _ => true | _ => false end.

End Tasks.

(** A pass of the loop that receives exactly one entry, respectively one
    exit, event. *)
Definition car_entry : SystemEvent := {| ev_type := EVENT_CAR_ENTRY; ev_value := 1 |}.
Definition car_exit : SystemEvent := {| ev_type := EVENT_CAR_EXIT; ev_value := 1 |}.
Definition entry_pass : option SystemEvent * option SystemEvent := (Some car_entry, None).
Definition exit_pass : option SystemEvent * option SystemEvent := (None, Some car_exit).

(** ** Reading a trace *)

(** Servo commands, in order. *)
Fixpoint servo_commands (t : Trace) : list Z :=
  match t with
  | [] => []
  | AServoWrite a :: r => a :: servo_commands r
  | _ :: r => servo_commands r
  end.

(** Display directives pushed on [lcdQueue], in order. *)
Fixpoint lcd_directives (t : Trace) : list LCDMessage :=
  match t with
  | [] => []
  | AQueueSend lcdQueue (ItemLcd m) :: r => m :: lcd_directives r
  | _ :: r => lcd_directives r
  end.

(** Values stored into [gateStatus], in order. *)
Fixpoint gate_stores (t : Trace) : list string :=
  match t with
  | [] => []
  | AStore G_gateStatus (VStr v) :: r => v :: gate_stores r
  | _ :: r => gate_stores r
  end.

(** Stores of any global. *)
Fixpoint stores (t : Trace) : list (Global * Value) :=
  match t with
  | [] => []
  | AStore g v :: r => (g, v) :: stores r
  | _ :: r => stores r
  end.

Definition is_actuation (a : Action) : bool :=
  match a with
  | AServoWrite _ => true
  | ADelay ms => ms =? 2000
  | _ => false
  end.

(** Bodies sent by the web server, in order. *)
Fixpoint sent_bodies (t : Trace) : list Body :=
  match t with
  | [] => []
  | AServerSend _ _ b :: r => b :: sent_bodies r
  | _ :: r => sent_bodies r
  end.

(** The number following the key [k] in assembled JSON text. *)
Fixpoint json_int_field (k : string) (ps : list Piece) : option Z :=
  match ps with
  | PKey k' :: PInt z :: r =>
      if String.eqb k k' then Some z else json_int_field k r
  | _ :: r => json_int_field k r
  | [] => None
  end.

(** The [uptime] field of the snapshot [handleData] sends. *)
Definition uptime_sent (t : Trace) : option Z :=
  match sent_bodies t with
  | [BodyText ps] => json_int_field "uptime" ps
  | _ => None
  end.

(** *** Locks held along a trace *)

Definition mutex_eqb (a b : Mutex) : bool :=
  match a, b with
  | slotsMutex, slotsMutex | gateStatusMutex, gateStatusMutex
  | lcdMutex, lcdMutex | dhtMutex, dhtMutex | timeMutex, timeMutex => true
  | _, _ => false
  end.

Fixpoint release (m : Mutex) (held : list Mutex) : list Mutex :=
  match held with
  | [] => []
  | h :: r => if mutex_eqb m h then r else h :: release m r
  end.

(** The locks held after a call, most recently taken first. *)
Definition held_step (held : list Mutex) (a : Action) : list Mutex :=
  match a with
  | ASemTake m _ true => m :: held
  | ASemGive m => release m held
  | _ => held
  end.

Definition held_after (held : list Mutex) (t : Trace) : list Mutex :=
  fold_left held_step t held.

(** [P] holds of the set of held locks after every call of the trace. *)
Fixpoint always_held (P : list Mutex -> bool) (held : list Mutex) (t : Trace) : bool :=
  match t with
  | [] => true
  | a :: r => P (held_step held a) && always_held P (held_step held a) r
  end.

(** The claim of the lock rule: never more than one lock at a time. *)
Definition one_lock (held : list Mutex) : bool := (List.length held <=? 1)%nat.

Definition is_state_lock (m : Mutex) : bool := negb (mutex_eqb m lcdMutex).

(** What the code keeps: at most one lock of a state group at a time, and a
    second lock only inside the display's own lock, taken first. *)
Definition nested_in_lcd (held : list Mutex) : bool :=
  match held with
  | [] => true
  | [_] => true
  | [m; lcdMutex] => is_state_lock m
  | _ => false
  end.

(** The largest number of locks held at once. *)
Fixpoint max_held (held : list Mutex) (t : Trace) : nat :=
  match t with
  | [] => List.length held
  | a :: r => Nat.max (List.length held) (max_held (held_step held a) r)
  end.

(** *** State groups and their locks *)

Inductive Group : Type := Capacity | Phase | Environment | Clock | Connectivity.

Definition group_of (g : Global) : Group :=
  match g with
  | G_availableSlots => Capacity
  | G_gateStatus => Phase
  | G_temperature | G_humidity => Environment
  | G_currentTime | G_currentDate => Clock
  | G_wifiConnected | G_internetConnected => Connectivity
  end.

Definition group_eqb (a b : Group) : bool :=
  match a, b with
  | Capacity, Capacity | Phase, Phase | Environment, Environment
  | Clock, Clock | Connectivity, Connectivity => true
  | _, _ => false
  end.

Definition touches (gr : Group) (a : Action) : bool :=
  match a with
  | ALoad g | AStore g _ => group_eqb gr (group_of g)
  | _ => false
  end.

(** Every load and store of the group [gr] is made while [P] holds of the
    locks held. *)
Fixpoint accesses_under (gr : Group) (P : list Mutex -> bool)
    (held : list Mutex) (t : Trace) : bool :=
  match t with
  | [] => true
  | a :: r =>
      (if touches gr a then P held else true)
      && accesses_under gr P (held_step held a) r
  end.

Definition holding (m : Mutex) (held : list Mutex) : bool := existsb (mutex_eqb m) held.

Definition guarded_by (gr : Group) (m : Mutex) (t : Trace) : bool :=
  accesses_under gr (holding m) [] t.

Definition no_lock (held : list Mutex) : bool :=
  match held with [] => true | _ => false end.

(** The number of loads and stores of a group in a trace. *)
Definition access_count (gr : Group) (t : Trace) : nat :=
  List.length (filter (touches gr) t).

(** ** The capacity bounds *)

Definition in_bounds (total : Z) (s : Shared) : Prop :=
  0 <= availableSlots s <= total.

(** [n] copies of a list, one after the other. *)
Fixpoint repeat_list {A} (n : nat) (l : list A) : list A :=
  match n with
  | O => []
  | S k => l ++ repeat_list k l
  end.

(** A trace keeps the lock rule [P] after every call and ends with no lock
    held. *)
Definition disciplined (P : list Mutex -> bool) (t : Trace) : Prop :=
  always_held P [] t = true /\ held_after [] t = [].

(** The lock under which the code touches each group; none for the
    connectivity flags. *)
Definition lock_of (gr : Group) : option Mutex :=
  match gr with
  | Capacity => Some slotsMutex
  | Phase => Some gateStatusMutex
  | Environment => Some dhtMutex
  | Clock => Some timeMutex
  | Connectivity => None
  end.

Definition access_rule (gr : Group) : list Mutex -> bool :=
  match lock_of gr with
  | Some m => holding m
  | None => no_lock
  end.

(** Stores into the globals of one group. *)
Definition stores_in (gr : Group) (t : Trace) : list (Global * Value) :=
  filter (fun p => group_eqb gr (group_of (fst p))) (stores t).

(** The one worker that stores into each group. *)
Definition writer_of (gr : Group) (j : Job) : bool :=
  match gr, j with
  | Capacity, JobGate _ _ | Phase, JobGate _ _ => true
  | Environment, JobDht _ _ _ => true
  | Clock, JobWifi _ _ | Connectivity, JobWifi _ _ => true
  | _, _ => false
  end.

(** ** Further readings of a trace *)

(** A rule [chk] on each call, given the locks held when it is made. *)
Fixpoint checked (chk : list Mutex -> Action -> bool) (held : list Mutex)
    (t : Trace) : bool :=
  match t with
  | [] => true
  | a :: r => chk held a && checked chk (held_step held a) r
  end.

(** Delays, queue operations, servo commands, the sensor read, the network
    calls and the replies of the bot and of the web server. *)
Definition is_blocking_call (a : Action) : bool :=
  match a with
  | ADelay _ | AQueueSend _ _ | AQueueReceive _ _ | AServoWrite _ | ADhtRead
  | AHttpProbe | AClockQuery | AWifiReconnect | ABotGetUpdates | ABotSend _ _
  | AServerSend _ _ _ => true
  | _ => false
  end.

Definition blocking_rule (held : list Mutex) (a : Action) : bool :=
  if is_blocking_call a then no_lock held else true.

(** A mutex is asked for only when not already held, and given back only
    when held. *)
Definition hygiene_rule (held : list Mutex) (a : Action) : bool :=
  match a with
  | ASemTake m _ _ => negb (holding m held)
  | ASemGive m => holding m held
  | _ => true
  end.

(** The display is driven only under [lcdMutex]. *)
Definition lcd_rule (held : list Mutex) (a : Action) : bool :=
  match a with
  | ALcd _ => holding lcdMutex held
  | _ => true
  end.

Definition queue_eqb (a b : Queue) : bool :=
  match a, b with
  | entryQueue, entryQueue | exitQueue, exitQueue | lcdQueue, lcdQueue => true
  | _, _ => false
  end.

(** Items sent to the queue [q], in order. *)
Fixpoint sent_to (q : Queue) (t : Trace) : list Item :=
  match t with
  | [] => []
  | AQueueSend q' it :: r =>
      if queue_eqb q q' then it :: sent_to q r else sent_to q r
  | _ :: r => sent_to q r
  end.

(** Pin levels written, in order. *)
Fixpoint digital_writes (t : Trace) : list (Z * bool) :=
  match t with
  | [] => []
  | ADigitalWrite pin high :: r => (pin, high) :: digital_writes r
  | _ :: r => digital_writes r
  end.

(** Display operations, in order. *)
Fixpoint lcd_ops (t : Trace) : list LcdOp :=
  match t with
  | [] => []
  | ALcd op :: r => op :: lcd_ops r
  | _ :: r => lcd_ops r
  end.

(** Replies sent through the bot, in order. *)
Fixpoint bot_replies (t : Trace) : list (string * list Piece) :=
  match t with
  | [] => []
  | ABotSend chat msg :: r => (chat, msg) :: bot_replies r
  | _ :: r => bot_replies r
  end.

(** Responses of the web server, in order. *)
Fixpoint responses (t : Trace) : list (Z * string) :=
  match t with
  | [] => []
  | AServerSend code ctype _ :: r => (code, ctype) :: responses r
  | _ :: r => responses r
  end.

Definition count_calls (sel : Action -> bool) (t : Trace) : nat :=
  List.length (filter sel t).

Definition is_reconnect (a : Action) : bool :=
  match a with AWifiReconnect => true | _ => false end.

Definition is_http_probe (a : Action) : bool :=
  match a with AHttpProbe => true | _ => false end.

Definition is_serial (a : Action) : bool :=
  match a with ASerial _ _ => true | _ => false end.

Definition is_delay_500 (a : Action) : bool :=
  match a with ADelay ms => ms =? 500 | _ => false end.

(** The keys of assembled JSON text, in order. *)
Fixpoint json_keys (ps : list Piece) : list string :=
  match ps with
  | [] => []
  | PKey k :: r => k :: json_keys r
  | _ :: r => json_keys r
  end.

(** The number under key [k] in the one JSON body a trace sends. *)
Definition snapshot_field (k : string) (t : Trace) : option Z :=
  match sent_bodies t with
  | [BodyText ps] => json_int_field k ps
  | _ => None
  end.

Definition snapshot_keys (t : Trace) : list string :=
  match sent_bodies t with
  | [BodyText ps] => json_keys ps
  | _ => []
  end.

(** A directive fits the two [char[17]] buffers of [LCDMessage]. *)
Definition fits16 (m : LCDMessage) : bool :=
  (String.length (line1 m) <=? 16)%nat && (String.length (line2 m) <=? 16)%nat.

(** ** sensorTask over successive passes *)

Fixpoint sensorTask (l : SensorLocals) (es : list SensorEnv) : Task SensorLocals :=
  match es with
  | [] => ret l
  | e :: rest => l' <- sensorTask_iter l e ;; sensorTask l' rest
  end.

(** The entry line reads LOW at both reads of a pass. *)
Definition entry_low (e : SensorEnv) : bool :=
  negb (entry_read1 e) && negb (entry_read2 e).

Definition exit_low (e : SensorEnv) : bool :=
  negb (exit_read1 e) && negb (exit_read2 e).

(** ** The time sources, as values *)

(** What [getCurrentTime] and [getCurrentDate] fall back through. *)
Definition clock_time (c : ClockSource) : string :=
  match ntp_time c with
  | Some v => v
  | None =>
      if api_link c then
        match api_time c with Some v => v | None => "00:00:00" end
      else "00:00:00"
  end.

Definition clock_date (c : ClockSource) : string :=
  match ntp_date c with
  | Some v => v
  | None =>
      if api_link c then
        match api_date c with Some v => v | None => "2024/01/01" end
      else "2024/01/01"
  end.

(** ** The dashboard script and the connection loop of setup *)

(** [formatUptime(sec)] of the page served by [getHTML], on a whole number
    of seconds: [Math.floor(sec / 3600)], [Math.floor((sec % 3600) / 60)],
    [sec % 60], joined with the unit letters. *)
Definition formatUptime (sec : Z) : list Piece :=
  let h := sec / 3600 in
  let m := (sec mod 3600) / 60 in
  let s := sec mod 60 in
  [PInt h; PText "h "; PInt m; PText "m "; PInt s; PText "s"].

(** The numbers shown by [formatUptime], in order. *)
Fixpoint piece_numbers (ps : list Piece) : list Z :=
  match ps with
  | [] => []
  | PInt z :: r => z :: piece_numbers r
  | _ :: r => piece_numbers r
  end.

(** The loop of [setup] that waits for the link:
    [while (WiFi.status() != WL_CONNECTED && attempts < 20)].  [status k] is
    the answer of the [k]-th call of [WiFi.status()], [true] for
    [WL_CONNECTED]; the result is [attempts] when the loop is left, [None]
    when [fuel] passes do not reach that point. *)
Fixpoint setup_wifi_wait (fuel : nat) (status : nat -> bool) (k : nat)
    (attempts : Z) : Task (option Z) :=
  match fuel with
  | O => ret None
  | S f =>
      emit AWifiStatus ;;
      if negb (status k) && (attempts <? 20) then
        vTaskDelay 500 ;;
        Serial_print "." [] ;;
        setup_wifi_wait f status (S k) (wrap_int (attempts + 1))
      else ret (Some attempts)
  end.

(** The workers that only read the globals. *)
Definition is_reader_job (j : Job) : bool :=
  match j with
  | JobSensor _ _ | JobLed | JobLcd _ _ _ _ _ | JobWeb _ _ _ | JobTelegram _ => true
  | _ => false
  end.

(** The commands the bot knows. *)
Definition known_command (t : string) : bool :=
  String.eqb t "/start" || String.eqb t "/status" || String.eqb t "/time"
  || String.eqb t "/temp" || String.eqb t "/all".

(** The three faces of a barrier cycle: phases stored, servo commands and
    display directives. *)
Definition cycles (n : nat) (t : Trace) : Prop :=
  gate_stores t = repeat_list n ["Open"; "Closed"]
  /\ servo_commands t = repeat_list n [0; 90]
  /\ List.length (lcd_directives t) = n.

(** The three rules on the locks held when a call is made, together. *)
Definition all_rules (held : list Mutex) (a : Action) : bool :=
  blocking_rule held a && hygiene_rule held a && lcd_rule held a.

(** The tests that open the connectivity check and the time update of a
    pass of the wifi task. *)
Definition check_due (l : WifiLocals) (e : WifiEnv) : bool :=
  u32_sub (wrap_u32 (w_elapsed_ms e)) (lastWiFiCheck l) >=? WIFI_CHECK_INTERVAL.

Definition time_due (l : WifiLocals) (e : WifiEnv) : bool :=
  u32_sub (wrap_u32 (w_elapsed_ms e)) (lastTimeUpdate l) >=? TIME_UPDATE_INTERVAL.

(** ** The gate task, statement by statement *)

(** Tasks run one after the other. *)
Fixpoint seq (ms : list (Task unit)) : Task unit :=
  match ms with
  | [] => ret tt
  | m :: rest => m ;; seq rest
  end.

(** What is seen after each of the tasks of a sequence: [obs] of the
    globals as they are once the task has run, and of the calls it made. *)
Fixpoint along {A} (obs : Shared -> Trace -> A) (ms : list (Task unit))
    (s : Shared) : list A :=
  match ms with
  | [] => []
  | m :: rest =>
      obs (state_after m s) (trace_of m s) :: along obs rest (state_after m s)
  end.

(** A call whose result is not used further. *)
Definition discard {A} (m : Task A) : Task unit := m ;; ret tt.

(** The block of [gateTask] that gives a slot back, lines 536-542. *)
Definition exit_count (TOTAL_SLOTS : Z) : Task unit :=
  ok <- xSemaphoreTake slotsMutex portMAX_DELAY true ;;
  when ok
    (a <- load_availableSlots ;;
     when (a <? TOTAL_SLOTS)
       (a1 <- load_availableSlots ;;
        store_availableSlots (wrap_int (a1 + 1)) ;;
        a2 <- load_availableSlots ;;
        Serial_print "  Exit complete! New slots: %d/%d\n"
          [VInt a2; VInt TOTAL_SLOTS]) ;;
     xSemaphoreGive slotsMutex).

(** The block of [gateTask] that takes a slot, lines 484-493. *)
Definition entry_count (TOTAL_SLOTS : Z) : Task unit :=
  ok2 <- xSemaphoreTake slotsMutex portMAX_DELAY true ;;
  when ok2
    (a1 <- load_availableSlots ;;
     store_availableSlots (wrap_int (a1 - 1)) ;;
     a2 <- load_availableSlots ;;
     Serial_print "  Entry complete! New slots: %d/%d\n"
       [VInt a2; VInt TOTAL_SLOTS] ;;
     a3 <- load_availableSlots ;;
     when (a3 =? 0) (Serial_print "  PARKING NOW FULL!" []) ;;
     xSemaphoreGive slotsMutex).

(** The statements of the exit branch of [gateTask], lines 504-543, in
    order. *)
Definition gate_exit_steps (TOTAL_SLOTS : Z) : list (Task unit) :=
  [ Serial_print "[Gate] EXIT PROCESSING" [];
    set_gate "Open";
    xQueueSend lcdQueue
      (ItemLcd {| line1 := "Gate: OPEN"; line2 := "Exiting..." |});
    Serial_print "  Opening barrier (0 degrees)..." [];
    servo_write 0;
    Serial_print "  Waiting 2 seconds..." [];
    vTaskDelay 2000;
    Serial_print "  Closing barrier (90 degrees)..." [];
    servo_write 90;
    set_gate "Closed";
    exit_count TOTAL_SLOTS;
    Serial_print EmptyString [] ].

(** The statements of the entry branch of [gateTask], lines 448-499, in
    order, as run when the entry is admitted ([granted], the test
    [availableSlots > 0]) and when it is refused. *)
Definition gate_entry_steps (TOTAL_SLOTS : Z) (granted : bool) : list (Task unit) :=
  if granted then
    [ discard (xSemaphoreTake slotsMutex portMAX_DELAY true);
      discard load_availableSlots;
      (a0 <- load_availableSlots ;;
       Serial_print "[Gate] ENTRY - Slots: %d/%d\n" [VInt a0; VInt TOTAL_SLOTS]);
      xSemaphoreGive slotsMutex;
      set_gate "Open";
      xQueueSend lcdQueue
        (ItemLcd {| line1 := "Gate: OPEN"; line2 := "Entering..." |});
      Serial_print "  Opening barrier (0 degrees)..." [];
      servo_write 0;
      Serial_print "  Waiting 2 seconds for car passage..." [];
      vTaskDelay 2000;
      Serial_print "  Closing barrier (90 degrees)..." [];
      servo_write 90;
      set_gate "Closed";
      entry_count TOTAL_SLOTS;
      Serial_print EmptyString [] ]
  else
    [ discard (xSemaphoreTake slotsMutex portMAX_DELAY true);
      discard load_availableSlots;
      Serial_print "[Gate] PARKING FULL - Entry DENIED!\n" [];
      xSemaphoreGive slotsMutex ].

(** The statements of a pass of [gateTask] that receives an entry event and
    no exit event. *)
Definition entry_pass_steps (TOTAL_SLOTS : Z) (granted : bool) : list (Task unit) :=
  discard (xQueueReceive entryQueue (Some car_entry))
  :: gate_entry_steps TOTAL_SLOTS granted
  ++ [ discard (xQueueReceive exitQueue (@None SystemEvent)); vTaskDelay 10 ].

(** The values of a list at which it changes, starting from [prev]. *)
Fixpoint changes (prev : string) (l : list string) : list string :=
  match l with
  | [] => []
  | x :: rest =>
      if String.eqb prev x then changes prev rest else x :: changes x rest
  end.





(** * Properties *)

(** ** Gate controller: capacity *)

Lemma wrap_int_id z : INT_MIN <= z <= INT_MAX -> wrap_int z = z.
Proof.
  unfold wrap_int, INT_MIN, INT_MAX. intros H.
  rewrite Z.mod_small by lia. lia.
Qed.

Ltac break_if :=
  match goal with
  | |- context [if ?c then _ else _] => destruct c eqn:?
  | |- context [match ?c with Some _ => _ | None => _ end] => destruct c eqn:?
  end.

(** Run a task symbolically, splitting on every test it makes. *)
Ltac run_task :=
  unfold state_after, trace_of, result; cbn;
  repeat (first [break_if | progress unfold when]; cbn).

(** What an entry pass leaves in the globals. *)
Lemma gate_entry_state total s :
  state_after (gate_entry total) s =
  if availableSlots s >? 0
  then set_availableSlots (wrap_int (availableSlots s - 1)) (set_gateStatus "Closed" s)
  else s.
Proof.
  unfold gate_entry. run_task; reflexivity.
Qed.

(** What an exit pass leaves in the globals. *)
Lemma gate_exit_state total s :
  state_after (gate_exit total) s =
  if availableSlots s <? total
  then set_availableSlots (wrap_int (availableSlots s + 1)) (set_gateStatus "Closed" s)
  else set_gateStatus "Closed" s.
Proof.
  unfold gate_exit. run_task; reflexivity.
Qed.

Lemma state_after_bind {A B} (m : Task A) (k : A -> Task B) s :
  state_after (bind m k) s = state_after (k (result m s)) (state_after m s).
Proof. reflexivity. Qed.

Lemma trace_of_bind {A B} (m : Task A) (k : A -> Task B) s :
  trace_of (bind m k) s = trace_of m s ++ trace_of (k (result m s)) (state_after m s).
Proof. reflexivity. Qed.

(** A pass is its entry branch followed by its exit branch. *)
Lemma gateTask_iter_state total rx_entry rx_exit s :
  state_after (gateTask_iter total rx_entry rx_exit) s =
  let s1 := match rx_entry with
            | Some _ => state_after (gate_entry total) s
            | None => s
            end in
  match rx_exit with
  | Some _ => state_after (gate_exit total) s1
  | None => s1
  end.
Proof. destruct rx_entry, rx_exit; reflexivity. Qed.

Lemma gateTask_cons total rx rest s :
  state_after (gateTask total (rx :: rest)) s =
  state_after (gateTask total rest)
    (state_after (gateTask_iter total (fst rx) (snd rx)) s).
Proof. destruct rx; reflexivity. Qed.

Lemma gate_entry_bounds total s :
  total <= INT_MAX -> in_bounds total s ->
  in_bounds total (state_after (gate_entry total) s).
Proof.
  unfold in_bounds. intros Ht Hs. rewrite gate_entry_state.
  destruct (Z.gtb_spec (availableSlots s) 0); [|assumption].
  cbn. rewrite wrap_int_id; unfold INT_MIN, INT_MAX in *; lia.
Qed.

Lemma gate_exit_bounds total s :
  total <= INT_MAX -> in_bounds total s ->
  in_bounds total (state_after (gate_exit total) s).
Proof.
  unfold in_bounds. intros Ht Hs. rewrite gate_exit_state.
  destruct (Z.ltb_spec (availableSlots s) total); cbn; [|assumption].
  rewrite wrap_int_id; unfold INT_MIN, INT_MAX in *; lia.
Qed.

Lemma gateTask_iter_bounds total rx_entry rx_exit s :
  total <= INT_MAX -> in_bounds total s ->
  in_bounds total (state_after (gateTask_iter total rx_entry rx_exit) s).
Proof.
  intros Ht Hs. rewrite gateTask_iter_state. cbv zeta.
  destruct rx_entry, rx_exit;
    auto using gate_entry_bounds, gate_exit_bounds.
Qed.

Lemma gateTask_bounds total rxs : forall s,
  total <= INT_MAX -> in_bounds total s ->
  in_bounds total (state_after (gateTask total rxs) s).
Proof.
  induction rxs as [|rx rest IH]; intros s Ht Hs.
  - exact Hs.
  - rewrite gateTask_cons. apply IH; [assumption|].
    now apply gateTask_iter_bounds.
Qed.

Ltac run_job_case :=
  unfold wifiTask_iter, sensorTask_iter, gateTask_iter, gate_entry, gate_exit,
    ledTask_iter, dhtTask_iter, lcdTask_iter, lcd_default, lcd_priority,
    webServerTask_iter, handleData, telegram_command,
    getCurrentTime, getCurrentDate, getTimeFromAPI, getDateFromAPI,
    checkInternetConnection;
  run_task.

Lemma stores_app t1 t2 : stores (t1 ++ t2) = stores t1 ++ stores t2.
Proof.
  induction t1 as [|a r IH]; [reflexivity|].
  destruct a; cbn; now rewrite ?IH.
Qed.

Lemma telegram_command_frame total m s :
  state_after (telegram_command total m) s = s
  /\ stores (trace_of (telegram_command total m) s) = [].
Proof. destruct m as [c t ok]. run_job_case; split; reflexivity. Qed.

Lemma telegram_commands_frame total ms : forall s,
  state_after (telegram_commands total ms) s = s
  /\ stores (trace_of (telegram_commands total ms) s) = [].
Proof.
  induction ms as [|m rest IH]; intros s; [now split|].
  cbn [telegram_commands].
  rewrite state_after_bind, trace_of_bind, stores_app.
  destruct (telegram_command_frame total m s) as [-> ->].
  apply IH.
Qed.

Lemma telegramTask_iter_frame total ms s :
  state_after (telegramTask_iter total ms) s = s
  /\ stores (trace_of (telegramTask_iter total ms) s) = [].
Proof.
  destruct (telegram_commands_frame total ms s) as [C D].
  unfold telegramTask_iter. split.
  - rewrite state_after_bind. cbv beta.
    rewrite state_after_bind. cbv beta.
    change (state_after (emit ABotGetUpdates) s) with s.
    now rewrite C.
  - rewrite trace_of_bind, stores_app. cbv beta.
    rewrite trace_of_bind, stores_app.
    change (state_after (emit ABotGetUpdates) s) with s.
    now rewrite D.
Qed.

(** No worker but the gate task changes the slot count or the gate status. *)
Lemma other_jobs_keep_gate_state total j s :
  is_gate_job j = false ->
  availableSlots (state_after (run_job total j) s) = availableSlots s
  /\ gateStatus (state_after (run_job total j) s) = gateStatus s.
Proof.
  intros Hj.
  destruct j as [l e|l e|rx_entry rx_exit| |l h t|lu rx tc ts ok|req ok ms|ms];
    try discriminate Hj; cbn [run_job].
  - destruct l, e as [? ? ? ? [? ? ? ? ?] ?]. run_job_case; split; reflexivity.
  - destruct l, e. run_job_case; split; reflexivity.
  - run_job_case; split; reflexivity.
  - destruct l. run_job_case; split; reflexivity.
  - destruct rx as [[a b]|]; run_job_case; split; reflexivity.
  - destruct req; run_job_case; split; reflexivity.
  - destruct (telegramTask_iter_frame total ms s) as [-> _]. now split.
Qed.

Lemma run_job_bounds total j s :
  total <= INT_MAX -> in_bounds total s ->
  in_bounds total (state_after (run_job total j) s).
Proof.
  intros Ht Hs. destruct (is_gate_job j) eqn:Hj.
  - destruct j; try discriminate Hj. now apply gateTask_iter_bounds.
  - unfold in_bounds.
    destruct (other_jobs_keep_gate_state total j s Hj) as [-> _]. exact Hs.
Qed.

Lemma run_jobs_bounds total js : forall s,
  total <= INT_MAX -> in_bounds total s ->
  in_bounds total (state_after (run_jobs total js) s).
Proof.
  induction js as [|j rest IH]; intros s Ht Hs; [exact Hs|].
  cbn [run_jobs]. rewrite state_after_bind.
  apply IH; [assumption|]. now apply run_job_bounds.
Qed.

(** C1. Whatever the gate task receives, pass after pass, the count of
    available slots stays within 0 and [total]: from the initial count
    [total] and from any count within the bounds.  A pass that receives an
    entry event takes one slot exactly when the count is strictly positive,
    a pass that receives an exit event returns one exactly when the count is
    strictly below [total]; otherwise the count is left as it is.  The
    bounds also hold when passes of all eight workers are run in any
    order. *)
Theorem C1_available_within_bounds
    (total : Z) (rxs : list (option SystemEvent * option SystemEvent))
    (js : list Job) (s : Shared) (ev : SystemEvent) :
  0 <= total <= INT_MAX ->
  0 <= availableSlots s <= total ->
  0 <= availableSlots (state_after (gateTask total rxs) (initial total)) <= total
  /\ 0 <= availableSlots (state_after (gateTask total rxs) s) <= total
  /\ 0 <= availableSlots (state_after (run_jobs total js) (initial total)) <= total
  /\ availableSlots (state_after (gateTask_iter total (Some ev) None) s) =
     (if availableSlots s >? 0 then availableSlots s - 1 else availableSlots s)
  /\ availableSlots (state_after (gateTask_iter total None (Some ev)) s) =
     (if availableSlots s <? total then availableSlots s + 1 else availableSlots s).
Proof.
  intros Ht Hs. repeat split.
  1,2: apply (gateTask_bounds total rxs (initial total)); [lia|]; unfold in_bounds; cbn; lia.
  1,2: apply (gateTask_bounds total rxs s); [lia|exact Hs].
  1,2: apply (run_jobs_bounds total js (initial total)); [lia|]; unfold in_bounds; cbn; lia.
  - rewrite gateTask_iter_state. cbv zeta. rewrite gate_entry_state.
    destruct (Z.gtb_spec (availableSlots s) 0); [|reflexivity].
    cbn. apply wrap_int_id. unfold INT_MIN, INT_MAX in *. lia.
  - rewrite gateTask_iter_state. cbv zeta. rewrite gate_exit_state.
    destruct (Z.ltb_spec (availableSlots s) total); [|reflexivity].
    cbn. apply wrap_int_id. unfold INT_MIN, INT_MAX in *. lia.
Qed.

Lemma C1_available_within_bounds_witness :
  0 <= availableSlots
         (state_after (gateTask 4 [entry_pass; exit_pass; exit_pass]) (initial 4)) <= 4.
Proof.
  apply (C1_available_within_bounds 4 [entry_pass; exit_pass; exit_pass]
           [JobLed; JobGate (Some car_entry) None] (initial 4) car_entry).
  - unfold INT_MAX. lia.
  - cbn. lia.
Defined.

(** ** Gate controller: denial, exit, phase *)

(** C2. A pass that receives an entry event while no slot is available
    leaves every global as it was, commands the servo not at all, pushes
    nothing on the display queue and stores nothing: it takes the slots
    lock, reads the count, logs the denial and gives the lock back. *)
Theorem C2_entry_denied_when_full (total : Z) (s : Shared) (ev : SystemEvent) :
  availableSlots s = 0 ->
  state_after (gateTask_iter total (Some ev) None) s = s
  /\ servo_commands (trace_of (gateTask_iter total (Some ev) None) s) = []
  /\ lcd_directives (trace_of (gateTask_iter total (Some ev) None) s) = []
  /\ stores (trace_of (gateTask_iter total (Some ev) None) s) = []
  /\ trace_of (gate_entry total) s =
     [ASemTake slotsMutex portMAX_DELAY true;
      ALoad G_availableSlots;
      ASerial "[Gate] PARKING FULL - Entry DENIED!\n" [];
      ASemGive slotsMutex].
Proof.
  intros H.
  unfold gateTask_iter, gate_entry, state_after, trace_of. cbn.
  rewrite H. cbn. repeat split; reflexivity.
Qed.

Lemma C2_entry_denied_when_full_witness :
  state_after (gateTask_iter 4 (Some car_entry) None) (set_availableSlots 0 (initial 4))
  = set_availableSlots 0 (initial 4).
Proof.
  apply (C2_entry_denied_when_full 4 (set_availableSlots 0 (initial 4)) car_entry).
  reflexivity.
Defined.

Lemma task_run_ext {A} (x y : A * Shared * Trace) :
  fst (fst x) = fst (fst y) -> snd (fst x) = snd (fst y) -> snd x = snd y -> x = y.
Proof. destruct x as [[a s] t], y as [[b u] v]. cbn. congruence. Qed.

(** The exit branch is its statements run in order. *)
Lemma gate_exit_is_steps total s :
  gate_exit total s = seq (gate_exit_steps total) s.
Proof.
  apply task_run_ext;
    unfold gate_exit, gate_exit_steps, exit_count, seq, set_gate;
    cbn; repeat (first [break_if | progress unfold when]; cbn); reflexivity.
Qed.

(** The entry branch is its statements run in order, those of the admitted
    or of the refused entry according to the count. *)
Lemma gate_entry_is_steps total s :
  gate_entry total s = seq (gate_entry_steps total (availableSlots s >? 0)) s.
Proof.
  apply task_run_ext;
    unfold gate_entry, gate_entry_steps, entry_count, seq, set_gate, discard;
    cbn; destruct (availableSlots s >? 0) eqn:E; cbn; rewrite ?E; cbn;
    repeat (first [break_if | progress unfold when]; cbn); reflexivity.
Qed.

(** C3. A pass that receives an exit event commands the servo to 0 and then
    to 90 degrees, with the 2000 ms wait between the two and nothing else
    of the kind, whatever the count of available slots; it then adds one to
    the count exactly when the count is strictly below [total].  With 4
    slots and none available, the count becomes 1.  The order is read off
    the globals between the statements of the exit branch: the count still
    has its old value after the servo has been commanded to 0, after the
    wait, after the servo has been commanded to 90 and after the gate status
    has been set back, and changes only in the block under [slotsMutex] that
    follows. *)
Theorem C3_exit_opens_then_counts (total : Z) (s : Shared) (ev : SystemEvent) :
  total <= INT_MAX ->
  INT_MIN <= availableSlots s ->
  servo_commands (trace_of (gateTask_iter total None (Some ev)) s) = [0; 90]
  /\ filter is_actuation (trace_of (gateTask_iter total None (Some ev)) s) =
     [AServoWrite 0; ADelay 2000; AServoWrite 90]
  /\ availableSlots (state_after (gateTask_iter total None (Some ev)) s) =
     (if availableSlots s <? total then availableSlots s + 1 else availableSlots s)
  /\ availableSlots
       (state_after (gateTask_iter 4 None (Some ev)) (set_availableSlots 0 (initial 4)))
     = 1
  /\ gate_exit total s = seq (gate_exit_steps total) s
  /\ along (fun s' t => (filter is_actuation t, availableSlots s'))
       (gate_exit_steps total) s =
     (let a := availableSlots s in
      let a' := if a <? total then a + 1 else a in
      [([], a); ([], a); ([], a); ([], a); ([AServoWrite 0], a); ([], a);
       ([ADelay 2000], a); ([], a); ([AServoWrite 90], a); ([], a);
       ([], a'); ([], a')]).
Proof.
  intros Ht Hs.
  split; [unfold gateTask_iter, gate_exit; run_task; reflexivity|].
  split; [unfold gateTask_iter, gate_exit; run_task; reflexivity|].
  split.
  { rewrite gateTask_iter_state. cbv zeta. rewrite gate_exit_state.
    destruct (Z.ltb_spec (availableSlots s) total); [|reflexivity].
    cbn. apply wrap_int_id. unfold INT_MIN, INT_MAX in *. lia. }
  split; [reflexivity|].
  split; [apply gate_exit_is_steps|].
  destruct s as [av gs te hu ct cd wc ic]. cbn [availableSlots] in *. cbv zeta.
  unfold gate_exit_steps, exit_count, set_gate, along, state_after, trace_of, when.
  cbn. destruct (Z.ltb_spec av total); cbn; [|reflexivity].
  rewrite wrap_int_id by (unfold INT_MIN, INT_MAX in *; lia). reflexivity.
Qed.

Lemma C3_exit_opens_then_counts_witness :
  servo_commands
    (trace_of (gateTask_iter 4 None (Some car_exit)) (set_availableSlots 0 (initial 4)))
  = [0; 90].
Proof.
  apply (C3_exit_opens_then_counts 4 (set_availableSlots 0 (initial 4)) car_exit).
  - unfold INT_MAX. lia.
  - unfold INT_MIN. cbn. lia.
Defined.

Lemma gate_stores_app t1 t2 :
  gate_stores (t1 ++ t2) = gate_stores t1 ++ gate_stores t2.
Proof.
  induction t1 as [|a r IH]; [reflexivity|].
  destruct a as [| | |g v| | | | | | | | | | | | | | | | | |]; cbn; try exact IH.
  destruct g, v; cbn; try exact IH. now rewrite IH.
Qed.

Lemma repeat_list_add {A} n m (l : list A) :
  repeat_list (n + m) l = repeat_list n l ++ repeat_list m l.
Proof.
  induction n as [|n IH]; [reflexivity|].
  cbn. now rewrite IH, app_assoc.
Qed.

Lemma gate_entry_phase total s :
  gateStatus (state_after (gate_entry total) s) =
  if availableSlots s >? 0 then "Closed" else gateStatus s.
Proof. rewrite gate_entry_state. now destruct (availableSlots s >? 0). Qed.

Lemma gate_exit_phase total s :
  gateStatus (state_after (gate_exit total) s) = "Closed".
Proof. rewrite gate_exit_state. now destruct (availableSlots s <? total). Qed.

Lemma gateTask_iter_closed total rx_entry rx_exit s :
  gateStatus s = "Closed" ->
  gateStatus (state_after (gateTask_iter total rx_entry rx_exit) s) = "Closed".
Proof.
  intros H. rewrite gateTask_iter_state. cbv zeta.
  destruct rx_exit; [apply gate_exit_phase|].
  destruct rx_entry; [|exact H].
  rewrite gate_entry_phase. now destruct (availableSlots s >? 0).
Qed.

Lemma gateTask_closed total rxs : forall s,
  gateStatus s = "Closed" ->
  gateStatus (state_after (gateTask total rxs) s) = "Closed".
Proof.
  induction rxs as [|rx rest IH]; intros s H; [exact H|].
  rewrite gateTask_cons. apply IH. now apply gateTask_iter_closed.
Qed.

Lemma gate_entry_stores total s :
  gate_stores (trace_of (gate_entry total) s) =
  if availableSlots s >? 0 then ["Open"; "Closed"] else [].
Proof. unfold gate_entry. run_task; reflexivity. Qed.

Lemma gate_exit_stores total s :
  gate_stores (trace_of (gate_exit total) s) = ["Open"; "Closed"].
Proof. unfold gate_exit. run_task; reflexivity. Qed.

Lemma gateTask_iter_stores total rx_entry rx_exit s :
  exists n, gate_stores (trace_of (gateTask_iter total rx_entry rx_exit) s) =
            repeat_list n ["Open"; "Closed"].
Proof.
  unfold gateTask_iter.
  rewrite trace_of_bind, gate_stores_app.
  rewrite trace_of_bind, gate_stores_app.
  rewrite trace_of_bind, gate_stores_app.
  rewrite trace_of_bind, gate_stores_app.
  set (s1 := state_after _ s). set (s2 := state_after _ s1).
  set (s3 := state_after _ s2). set (s4 := state_after _ s3).
  assert (He : exists n, gate_stores
             (trace_of (match result (xQueueReceive entryQueue rx_entry) s with
                        | Some _ => gate_entry total
                        | None => ret tt
                        end) s1) = repeat_list n ["Open"; "Closed"]).
  { destruct rx_entry; cbn [result xQueueReceive bind emit ret fst snd].
    - rewrite gate_entry_stores.
      destruct (availableSlots s1 >? 0); [now exists 1%nat | now exists 0%nat].
    - now exists 0%nat. }
  assert (Hx : exists n, gate_stores
             (trace_of (match result (xQueueReceive exitQueue rx_exit) s2 with
                        | Some _ => gate_exit total
                        | None => ret tt
                        end) s3) = repeat_list n ["Open"; "Closed"]).
  { destruct rx_exit; cbn [result xQueueReceive bind emit ret fst snd].
    - rewrite gate_exit_stores. now exists 1%nat.
    - now exists 0%nat. }
  destruct He as [n He], Hx as [m Hx].
  exists (n + m)%nat. rewrite He, Hx, repeat_list_add.
  destruct rx_entry, rx_exit; cbn [trace_of xQueueReceive bind emit ret fst snd vTaskDelay gate_stores app];
    now rewrite app_nil_r.
Qed.

Lemma gateTask_stores total rxs : forall s,
  exists n, gate_stores (trace_of (gateTask total rxs) s) =
            repeat_list n ["Open"; "Closed"].
Proof.
  induction rxs as [|[rx_entry rx_exit] rest IH]; intros s.
  - now exists 0%nat.
  - cbn [gateTask]. rewrite trace_of_bind, gate_stores_app.
    destruct (gateTask_iter_stores total rx_entry rx_exit s) as [n Hn].
    destruct (IH (state_after (gateTask_iter total rx_entry rx_exit) s)) as [m Hm].
    exists (n + m)%nat. now rewrite Hn, Hm, repeat_list_add.
Qed.

(** C4. From a state whose gate phase reads Closed, the phase reads Closed
    again after every pass of the gate task and after any number of passes.
    While an admitted entry or an exit is handled the phase goes Closed,
    Open, Closed; a denied entry stores no phase.  Over any run the stored
    phases are a whole number of Open, Closed pairs.  The phase is read off
    the globals between the statements of each branch: it reads Closed up to
    the statement that sets it Open, Open after that statement and after
    each statement up to the servo command to 90, the servo command to 0 and
    the 2000 ms wait among them, and Closed after the statement that sets it
    back and after the update of the count.  The gate task is the only
    writer of the gate status, so these are the values every reader finds
    at those points. *)
Theorem C4_phase_closed_open_closed
    (total : Z) (s : Shared)
    (rxs : list (option SystemEvent * option SystemEvent))
    (rx_entry rx_exit : option SystemEvent) :
  gateStatus s = "Closed" ->
  gateStatus (state_after (gateTask_iter total rx_entry rx_exit) s) = "Closed"
  /\ gateStatus (state_after (gateTask total rxs) s) = "Closed"
  /\ gateStatus s :: gate_stores (trace_of (gate_entry total) s) =
     (if availableSlots s >? 0 then ["Closed"; "Open"; "Closed"] else ["Closed"])
  /\ gateStatus s :: gate_stores (trace_of (gate_exit total) s) =
     ["Closed"; "Open"; "Closed"]
  /\ (exists n, gate_stores (trace_of (gateTask total rxs) s) =
                repeat_list n ["Open"; "Closed"])
  /\ gate_exit total s = seq (gate_exit_steps total) s
  /\ along (fun s' t => (filter is_actuation t, gateStatus s'))
       (gate_exit_steps total) s =
     [([], "Closed"); ([], "Open"); ([], "Open"); ([], "Open");
      ([AServoWrite 0], "Open"); ([], "Open"); ([ADelay 2000], "Open");
      ([], "Open"); ([AServoWrite 90], "Open"); ([], "Closed"); ([], "Closed");
      ([], "Closed")]
  /\ gate_entry total s = seq (gate_entry_steps total (availableSlots s >? 0)) s
  /\ along (fun s' t => (filter is_actuation t, gateStatus s'))
       (gate_entry_steps total (availableSlots s >? 0)) s =
     (if availableSlots s >? 0 then
        [([], "Closed"); ([], "Closed"); ([], "Closed"); ([], "Closed");
         ([], "Open"); ([], "Open"); ([], "Open");
         ([AServoWrite 0], "Open"); ([], "Open"); ([ADelay 2000], "Open");
         ([], "Open"); ([AServoWrite 90], "Open"); ([], "Closed"); ([], "Closed");
         ([], "Closed")]
      else
        [([], "Closed"); ([], "Closed"); ([], "Closed"); ([], "Closed")]).
Proof.
  intros H.
  split; [now apply gateTask_iter_closed|].
  split; [now apply gateTask_closed|].
  split; [rewrite gate_entry_stores, H; now destruct (availableSlots s >? 0)|].
  split; [now rewrite gate_exit_stores, H|].
  split; [apply gateTask_stores|].
  split; [apply gate_exit_is_steps|].
  split; [|split; [apply gate_entry_is_steps|]];
    destruct s as [av gs te hu ct cd wc ic]; cbn [availableSlots gateStatus] in *;
    subst gs;
    unfold gate_exit_steps, gate_entry_steps, exit_count, entry_count, set_gate,
      discard, along, state_after, trace_of, when.
  - cbn. destruct (av <? total); reflexivity.
  - destruct (av >? 0); cbn; [|reflexivity].
    destruct (wrap_int (av - 1) =? 0); reflexivity.
Qed.

Lemma C4_phase_closed_open_closed_witness :
  gateStatus (state_after (gateTask_iter 4 (Some car_entry) (Some car_exit)) (initial 4))
  = "Closed".
Proof.
  apply (C4_phase_closed_open_closed 4 (initial 4) [entry_pass]
           (Some car_entry) (Some car_exit)).
  reflexivity.
Defined.

(** C5. With 4 slots, all available, four passes that each receive an entry
    event bring the count to 0 through 3, 2 and 1, the servo going to 0 and
    back to 90 four times.  Read off the globals between the statements of
    the four passes, the gate phase goes Closed, Open, Closed four times
    over and changes at no other point.  A fifth entry event is refused: the
    globals are left as they were between all its statements, the count
    stays 0, the phase does not change and the servo is not commanded. *)
Theorem C5_four_entries_then_denied :
  let four := gateTask 4 [entry_pass; entry_pass; entry_pass; entry_pass] in
  let steps4 := entry_pass_steps 4 true ++ entry_pass_steps 4 true
                ++ entry_pass_steps 4 true ++ entry_pass_steps 4 true in
  let s4 := state_after four (initial 4) in
  let fifth := gateTask_iter 4 (Some car_entry) None in
  availableSlots s4 = 0
  /\ gateStatus s4 = "Closed"
  /\ four (initial 4) = seq steps4 (initial 4)
  /\ gateStatus (initial 4)
     :: changes (gateStatus (initial 4))
          (along (fun s' _ => gateStatus s') steps4 (initial 4)) =
     ["Closed"; "Open"; "Closed"; "Open"; "Closed"; "Open"; "Closed"; "Open"; "Closed"]
  /\ servo_commands (trace_of four (initial 4)) = [0; 90; 0; 90; 0; 90; 0; 90]
  /\ map availableSlots
       [state_after (gateTask 4 [entry_pass]) (initial 4);
        state_after (gateTask 4 [entry_pass; entry_pass]) (initial 4);
        state_after (gateTask 4 [entry_pass; entry_pass; entry_pass]) (initial 4)]
     = [3; 2; 1]
  /\ fifth s4 = seq (entry_pass_steps 4 false) s4
  /\ state_after fifth s4 = s4
  /\ availableSlots (state_after fifth s4) = 0
  /\ changes (gateStatus s4)
       (along (fun s' _ => gateStatus s') (entry_pass_steps 4 false) s4) = []
  /\ along (fun s' _ => s') (entry_pass_steps 4 false) s4 =
     [s4; s4; s4; s4; s4; s4; s4]
  /\ servo_commands (trace_of fifth s4) = []
  /\ lcd_directives (trace_of fifth s4) = [].
Proof.
  cbv zeta.
  split; [vm_compute; reflexivity|]. split; [vm_compute; reflexivity|].
  split; [vm_compute; reflexivity|]. split; [vm_compute; reflexivity|].
  split; [vm_compute; reflexivity|]. split; [vm_compute; reflexivity|].
  split; [vm_compute; reflexivity|]. split; [vm_compute; reflexivity|].
  split; [vm_compute; reflexivity|]. split; [vm_compute; reflexivity|].
  split; [vm_compute; reflexivity|]. split; vm_compute; reflexivity.
Qed.

(** ** Locks *)

Lemma held_after_app h t1 t2 :
  held_after h (t1 ++ t2) = held_after (held_after h t1) t2.
Proof. unfold held_after. apply fold_left_app. Qed.

Lemma always_held_app P t1 : forall h t2,
  always_held P h (t1 ++ t2) =
  always_held P h t1 && always_held P (held_after h t1) t2.
Proof.
  induction t1 as [|a r IH]; intros h t2; [reflexivity|].
  cbn. now rewrite IH, andb_assoc.
Qed.

Lemma accesses_under_app gr P t1 : forall h t2,
  accesses_under gr P h (t1 ++ t2) =
  accesses_under gr P h t1 && accesses_under gr P (held_after h t1) t2.
Proof.
  induction t1 as [|a r IH]; intros h t2; [reflexivity|].
  cbn. now rewrite IH, andb_assoc.
Qed.

Lemma disciplined_app P t1 t2 :
  disciplined P t1 -> disciplined P t2 -> disciplined P (t1 ++ t2).
Proof.
  intros [A1 H1] [A2 H2]. split.
  - now rewrite always_held_app, A1, H1, A2.
  - now rewrite held_after_app, H1, H2.
Qed.

Lemma telegram_command_disciplined total m s :
  disciplined one_lock (trace_of (telegram_command total m) s).
Proof.
  destruct m as [c t ok]. unfold disciplined.
  run_job_case; split; reflexivity.
Qed.

Lemma telegram_commands_disciplined total ms : forall s,
  disciplined one_lock (trace_of (telegram_commands total ms) s).
Proof.
  induction ms as [|m rest IH]; intros s; [now split|].
  cbn [telegram_commands]. rewrite trace_of_bind.
  apply disciplined_app; [apply telegram_command_disciplined | apply IH].
Qed.

Lemma always_held_weaken (P Q : list Mutex -> bool) :
  (forall h, P h = true -> Q h = true) ->
  forall t h, always_held P h t = true -> always_held Q h t = true.
Proof.
  intros PQ. induction t as [|a r IH]; intros h H; [reflexivity|].
  cbn in *. apply andb_true_iff in H as [H1 H2].
  now rewrite (PQ _ H1), (IH _ H2).
Qed.

Lemma one_lock_nested h : one_lock h = true -> nested_in_lcd h = true.
Proof. destruct h as [|a [|b r]]; cbn; congruence. Qed.

Lemma telegramTask_iter_disciplined total ms s :
  disciplined one_lock (trace_of (telegramTask_iter total ms) s).
Proof.
  unfold telegramTask_iter.
  rewrite trace_of_bind. apply (disciplined_app one_lock [ABotGetUpdates]); [now split|].
  rewrite trace_of_bind. apply disciplined_app; [apply telegram_commands_disciplined|].
  now split.
Qed.

(** Every worker but the display's keeps to one lock at a time. *)
Lemma job_one_lock total j s :
  is_lcd_job j = false ->
  disciplined one_lock (trace_of (run_job total j) s).
Proof.
  intros Hj. destruct j as [l e|l e|rx_entry rx_exit| |l h t|lu rx tc ts ok|req ok ms|ms];
    try discriminate Hj; cbn [run_job].
  - destruct l, e as [? ? ? ? [? ? ? ? ?] ?]. unfold disciplined.
    run_job_case; split; reflexivity.
  - destruct l, e. unfold disciplined. run_job_case; split; reflexivity.
  - destruct rx_entry, rx_exit; unfold disciplined; run_job_case; split; reflexivity.
  - unfold disciplined. run_job_case; split; reflexivity.
  - destruct l. unfold disciplined. run_job_case; split; reflexivity.
  - destruct req; unfold disciplined; run_job_case; split; reflexivity.
  - apply telegramTask_iter_disciplined.
Qed.

(** The display worker holds its own lock around at most one other. *)
Lemma lcd_job_nested total lu rx tc ts ok s :
  disciplined nested_in_lcd (trace_of (run_job total (JobLcd lu rx tc ts ok)) s).
Proof.
  cbn [run_job]. destruct rx as [[a b]|]; unfold disciplined;
    run_job_case; split; reflexivity.
Qed.

(** C6. Every pass of every worker keeps this rule: at most one lock of a
    state group (slots, gate status, sensor reading, time) is held at a
    time, a second lock is held only inside the display lock, which is then
    the one taken first, and no lock is held when the pass ends.  Every
    worker other than the display worker holds at most one lock at a time. *)
Theorem C6_locks_nested_only_in_display (total : Z) (j : Job) (s : Shared) :
  always_held nested_in_lcd [] (trace_of (run_job total j) s) = true
  /\ held_after [] (trace_of (run_job total j) s) = []
  /\ (if is_lcd_job j then true
      else always_held one_lock [] (trace_of (run_job total j) s)) = true.
Proof.
  destruct (is_lcd_job j) eqn:Hj.
  - destruct j; try discriminate Hj.
    destruct (lcd_job_nested total lastUpdate rx tick_cond tick_set time_ok s) as [A B].
    now repeat split.
  - destruct (job_one_lock total j s Hj) as [A B].
    repeat split; try assumption.
    revert A. apply always_held_weaken. exact one_lock_nested.
Qed.

(** The display worker's default rendering holds [lcdMutex] and, inside it,
    [timeMutex], then [slotsMutex], then [gateStatusMutex]: two locks at
    once. *)
Lemma C6_display_holds_two_locks :
  always_held one_lock []
    (trace_of (run_job 4 (JobLcd 0 None 500 500 true)) (initial 4)) = false
  /\ max_held []
       (trace_of (run_job 4 (JobLcd 0 None 500 500 true)) (initial 4)) = 2%nat
  /\ held_after []
       [ASemTake lcdMutex portMAX_DELAY true; ALcd LcdClear; ALcd (LcdSetCursor 0 0);
        ASemTake timeMutex (pdMS_TO_TICKS 50) true]
     = [timeMutex; lcdMutex]
  /\ firstn 6 (trace_of (run_job 4 (JobLcd 0 None 500 500 true)) (initial 4)) =
     [AQueueReceive lcdQueue false; ATickCount;
      ASemTake lcdMutex portMAX_DELAY true; ALcd LcdClear; ALcd (LcdSetCursor 0 0);
      ASemTake timeMutex (pdMS_TO_TICKS 50) true].
Proof. repeat split. Qed.

(** ** Which lock guards which group *)

Lemma telegram_command_accesses total m s gr :
  accesses_under gr (access_rule gr) [] (trace_of (telegram_command total m) s) = true.
Proof. destruct m as [c t ok], gr; run_job_case; reflexivity. Qed.

Lemma telegram_commands_accesses total gr ms : forall s,
  accesses_under gr (access_rule gr) [] (trace_of (telegram_commands total ms) s) = true.
Proof.
  induction ms as [|m rest IH]; intros s; [reflexivity|].
  cbn [telegram_commands]. rewrite trace_of_bind, accesses_under_app.
  rewrite telegram_command_accesses.
  destruct (telegram_command_disciplined total m s) as [_ ->].
  apply IH.
Qed.

Lemma job_accesses total j s gr :
  accesses_under gr (access_rule gr) [] (trace_of (run_job total j) s) = true.
Proof.
  destruct j as [l e|l e|rx_entry rx_exit| |l h t|lu rx tc ts ok|req ok ms|ms];
    cbn [run_job].
  - destruct l, e as [? ? ? ? [? ? ? ? ?] ?], gr; run_job_case; reflexivity.
  - destruct l, e, gr; run_job_case; reflexivity.
  - destruct rx_entry, rx_exit, gr; run_job_case; reflexivity.
  - destruct gr; run_job_case; reflexivity.
  - destruct l, gr; run_job_case; reflexivity.
  - destruct rx as [[a b]|], gr; run_job_case; reflexivity.
  - destruct req, gr; run_job_case; reflexivity.
  - unfold telegramTask_iter.
    rewrite trace_of_bind, accesses_under_app.
    rewrite trace_of_bind, accesses_under_app.
    change (held_after [] (trace_of (emit ABotGetUpdates) s)) with (@nil Mutex).
    rewrite telegram_commands_accesses.
    destruct gr; reflexivity.
Qed.

(** In every pass of every worker, each load and store of the slot count is
    made holding [slotsMutex], of the gate status holding [gateStatusMutex],
    of temperature and humidity holding [dhtMutex], of the cached time and
    date holding [timeMutex]. *)
Lemma groups_guarded (total : Z) (j : Job) (s : Shared) :
  guarded_by Capacity slotsMutex (trace_of (run_job total j) s) = true
  /\ guarded_by Phase gateStatusMutex (trace_of (run_job total j) s) = true
  /\ guarded_by Environment dhtMutex (trace_of (run_job total j) s) = true
  /\ guarded_by Clock timeMutex (trace_of (run_job total j) s) = true.
Proof.
  repeat split.
  - exact (job_accesses total j s Capacity).
  - exact (job_accesses total j s Phase).
  - exact (job_accesses total j s Environment).
  - exact (job_accesses total j s Clock).
Qed.

(** C7. The connectivity flags are not behind a lock.  Serving [/data] from
    the initial state, [handleData] loads [wifiConnected] and
    [internetConnected] after it has given back the last mutex it took:
    both loads are made holding no mutex, so no mutex can be named under
    which every access of the flags is made, in the web worker or over all
    workers.  A pass of the wifi task that checks connectivity stores both
    flags holding no mutex either. *)
Lemma C7_flags_read_without_lock :
  access_count Connectivity (trace_of (handleData 4 true 0) (initial 4)) = 2%nat
  /\ (forall m : Mutex,
        guarded_by Connectivity m (trace_of (handleData 4 true 0) (initial 4)) = false)
  /\ ~ (exists m : Mutex,
          forall j : Job,
            guarded_by Connectivity m (trace_of (run_job 4 j) (initial 4)) = true).
Proof.
  split; [reflexivity|]. split; [intros m; destruct m; reflexivity|].
  intros [m H].
  specialize (H (JobWeb (Some "/data") true 0)).
  destruct m; discriminate H.
Qed.

(** ** Environmental sampler *)

(** C8. When the humidity or the temperature read from the sensor is NaN,
    the pass of the sampler leaves every global, and so the stored
    temperature and humidity, as it was, keeps its own last logged values,
    and does nothing but log the invalid reading and wait.  When neither is
    NaN it stores exactly the two values read. *)
Theorem C8_nan_reading_keeps_last (l : DhtLocals) (h t : float) (s : Shared) :
  if isnan h || isnan t then
    state_after (dhtTask_iter l h t) s = s
    /\ result (dhtTask_iter l h t) s = l
    /\ trace_of (dhtTask_iter l h t) s =
       [ADhtRead; ADhtRead;
        ASerial "[DHT] Invalid reading - check wiring" [];
        ADelay 2000]
  else
    temperature (state_after (dhtTask_iter l h t) s) = t
    /\ humidity (state_after (dhtTask_iter l h t) s) = h
    /\ stores (trace_of (dhtTask_iter l h t) s) =
       [(G_temperature, VFloat t); (G_humidity, VFloat h)].
Proof.
  unfold dhtTask_iter.
  destruct (isnan h) eqn:Hh; [now repeat split|].
  destruct (isnan t) eqn:Ht; [now repeat split|].
  run_task; repeat split; reflexivity.
Qed.

(** ** Remote commands *)

(** C9. Handling a message of the bot, whatever its text, leaves every
    global as it was and makes no store: the slot count, the gate status,
    the temperature and humidity, the cached time and date and the
    connectivity flags are at most loaded.  The same holds of a whole pass
    of the telegram task over the messages it has fetched. *)
Theorem C9_commands_store_nothing (total : Z) (m : TgMessage)
    (ms : list TgMessage) (s : Shared) :
  state_after (telegram_command total m) s = s
  /\ stores (trace_of (telegram_command total m) s) = []
  /\ state_after (telegramTask_iter total ms) s = s
  /\ stores (trace_of (telegramTask_iter total ms) s) = [].
Proof.
  destruct (telegram_command_frame total m s) as [A B].
  destruct (telegramTask_iter_frame total ms s) as [C D].
  now repeat split.
Qed.

(** ** Snapshot *)

(** C10. The uptime sent by [handleData] is the count of milliseconds since
    boot, reduced modulo 2^32, divided by 1000.  It is 4294967 one
    millisecond before the count reaches 2^32 and 0 when it does, it is the
    same 2^32 ms later, and 2^32 ms lies between 49.7 and 49.8 days. *)
Theorem C10_uptime_wraps (total : Z) (time_ok : bool) (elapsed_ms : Z) (s : Shared) :
  uptime_sent (trace_of (handleData total time_ok elapsed_ms) s) =
    Some ((elapsed_ms mod 2 ^ 32) / 1000)
  /\ uptime_sent (trace_of (handleData total time_ok (2 ^ 32 - 1)) s) = Some 4294967
  /\ uptime_sent (trace_of (handleData total time_ok (2 ^ 32)) s) = Some 0
  /\ uptime_sent (trace_of (handleData total time_ok (elapsed_ms + 2 ^ 32)) s) =
     uptime_sent (trace_of (handleData total time_ok elapsed_ms) s)
  /\ 497 * 8640000 <= 2 ^ 32 < 498 * 8640000.
Proof.
  assert (H : forall e, uptime_sent (trace_of (handleData total time_ok e) s) =
                        Some ((e mod 2 ^ 32) / 1000)).
  { intros e. destruct time_ok; reflexivity. }
  rewrite !H.
  split; [reflexivity|]. split; [reflexivity|]. split; [reflexivity|].
  split; [|lia].
  replace (elapsed_ms + 2 ^ 32) with (elapsed_ms + 1 * 2 ^ 32) by lia.
  now rewrite Z_mod_plus_full.
Qed.

(** ** One writer per group *)

Lemma stores_in_app gr t1 t2 :
  stores_in gr (t1 ++ t2) = stores_in gr t1 ++ stores_in gr t2.
Proof. unfold stores_in. now rewrite stores_app, filter_app. Qed.

(** Only the gate task stores the slot count and the gate status, only the
    sampler the temperature and humidity, only the wifi task the time cache
    and the connectivity flags. *)
Lemma single_writer total gr j s :
  writer_of gr j = false ->
  stores_in gr (trace_of (run_job total j) s) = [].
Proof.
  intros Hw.
  destruct j as [l e|l e|rx_entry rx_exit| |l h t|lu rx tc ts ok|req ok ms|ms];
    cbn [run_job].
  - destruct gr; try discriminate Hw;
      destruct l, e as [? ? ? ? [? ? ? ? ?] ?]; run_job_case; reflexivity.
  - destruct l, e, gr; run_job_case; reflexivity.
  - destruct gr; try discriminate Hw;
      destruct rx_entry, rx_exit; run_job_case; reflexivity.
  - destruct gr; run_job_case; reflexivity.
  - destruct gr; try discriminate Hw; destruct l; run_job_case; reflexivity.
  - destruct rx as [[a b]|], gr; run_job_case; reflexivity.
  - destruct req, gr; run_job_case; reflexivity.
  - unfold stores_in.
    destruct (telegramTask_iter_frame total ms s) as [_ ->].
    reflexivity.
Qed.

(** * Further properties of the tasks *)

(** ** Gate task *)

Lemma servo_commands_app t1 t2 :
  servo_commands (t1 ++ t2) = servo_commands t1 ++ servo_commands t2.
Proof.
  induction t1 as [|a r IH]; [reflexivity|].
  destruct a; cbn; now rewrite ?IH.
Qed.

Lemma lcd_directives_app t1 t2 :
  lcd_directives (t1 ++ t2) = lcd_directives t1 ++ lcd_directives t2.
Proof.
  induction t1 as [|a r IH]; [reflexivity|].
  destruct a as [| | | | |q it| | | | | | | | | | | | | | | |]; cbn; try exact IH.
  destruct q, it; cbn; try exact IH. now rewrite IH.
Qed.

Lemma cycles_app n m t1 t2 :
  cycles n t1 -> cycles m t2 -> cycles (n + m) (t1 ++ t2).
Proof.
  intros (A1 & B1 & C1) (A2 & B2 & C2). unfold cycles.
  rewrite gate_stores_app, servo_commands_app, lcd_directives_app.
  rewrite A1, A2, B1, B2, !repeat_list_add, length_app, C1, C2.
  now repeat split.
Qed.

Lemma gateTask_iter_cycles total rx_entry rx_exit s :
  exists n, cycles n (trace_of (gateTask_iter total rx_entry rx_exit) s).
Proof.
  unfold cycles.
  destruct rx_entry, rx_exit; run_job_case;
    first [ exists 0%nat; now repeat split
          | exists 1%nat; now repeat split
          | exists 2%nat; now repeat split ].
Qed.

(** X1. Over any run of the gate task the barrier is cycled whole: the servo
    commands are some number of pairs 0, 90, so the last command of a run
    that moves the barrier closes it, and that number is also the number of
    Open, Closed pairs stored in the gate status and the number of
    directives pushed to the display. *)
Theorem X1_barrier_cycles_are_whole
    (total : Z) (rxs : list (option SystemEvent * option SystemEvent)) (s : Shared) :
  exists n : nat,
    servo_commands (trace_of (gateTask total rxs) s) = repeat_list n [0; 90]
    /\ gate_stores (trace_of (gateTask total rxs) s) = repeat_list n ["Open"; "Closed"]
    /\ List.length (lcd_directives (trace_of (gateTask total rxs) s)) = n.
Proof.
  revert s. induction rxs as [|[rx_entry rx_exit] rest IH]; intros s.
  - exists 0%nat. now repeat split.
  - cbn [gateTask]. rewrite trace_of_bind.
    destruct (gateTask_iter_cycles total rx_entry rx_exit s) as [n Hn].
    destruct (IH (state_after (gateTask_iter total rx_entry rx_exit) s))
      as (m & A & B & C).
    exists (n + m)%nat.
    destruct (cycles_app n m _ _ Hn (conj B (conj A C))) as (P & Q & R).
    now repeat split.
Qed.

(** X2. When one pass receives both an entry and an exit event, the entry is
    handled first.  With no slot available the entry is refused although the
    exit of the same pass then frees a slot; with a slot available the count
    ends where it started. *)
Theorem X2_entry_before_exit_in_one_pass
    (total : Z) (s : Shared) (e x : SystemEvent) :
  total <= INT_MAX ->
  0 <= availableSlots s <= total ->
  availableSlots (state_after (gateTask_iter total (Some e) (Some x)) s) =
    (if availableSlots s >? 0 then availableSlots s
     else if 0 <? total then 1 else 0)
  /\ lcd_directives (trace_of (gateTask_iter total (Some e) (Some x)) s) =
     (if availableSlots s >? 0
      then [{| line1 := "Gate: OPEN"; line2 := "Entering..." |};
            {| line1 := "Gate: OPEN"; line2 := "Exiting..." |}]
      else [{| line1 := "Gate: OPEN"; line2 := "Exiting..." |}]).
Proof.
  intros Ht Hs. split.
  - rewrite gateTask_iter_state. cbv zeta.
    rewrite gate_exit_state, gate_entry_state.
    destruct (Z.gtb_spec (availableSlots s) 0) as [Hp|Hp]; cbn.
    + rewrite (wrap_int_id (availableSlots s - 1))
        by (unfold INT_MIN, INT_MAX in *; lia).
      destruct (Z.ltb_spec (availableSlots s - 1) total); [|lia].
      cbn. rewrite wrap_int_id by (unfold INT_MIN, INT_MAX in *; lia). lia.
    + assert (Hz : availableSlots s = 0) by lia.
      destruct (Z.ltb_spec (availableSlots s) total);
        destruct (Z.ltb_spec 0 total); try lia; cbn.
      * rewrite Hz. reflexivity.
      * exact Hz.
  - run_job_case; reflexivity.
Qed.

Lemma X2_entry_before_exit_in_one_pass_witness :
  availableSlots
    (state_after (gateTask_iter 4 (Some car_entry) (Some car_exit))
       (set_availableSlots 0 (initial 4))) = 1.
Proof.
  apply (X2_entry_before_exit_in_one_pass 4 (set_availableSlots 0 (initial 4))
           car_entry car_exit).
  - unfold INT_MAX. lia.
  - cbn. lia.
Defined.

(** X3. Every directive the gate task pushes to the display queue fits the
    two 17-byte buffers of [LCDMessage]: neither line is longer than 16
    characters, on any run. *)
Theorem X3_directives_fit_buffers
    (total : Z) (rxs : list (option SystemEvent * option SystemEvent)) (s : Shared) :
  forallb fits16 (lcd_directives (trace_of (gateTask total rxs) s)) = true.
Proof.
  revert s. induction rxs as [|[rx_entry rx_exit] rest IH]; intros s.
  - reflexivity.
  - cbn [gateTask]. rewrite trace_of_bind, lcd_directives_app, forallb_app, IH.
    rewrite andb_true_r.
    destruct rx_entry, rx_exit; run_job_case; reflexivity.
Qed.

(** ** Lock use of all workers *)

Lemma checked_app chk t1 : forall h t2,
  checked chk h (t1 ++ t2) =
  checked chk h t1 && checked chk (held_after h t1) t2.
Proof.
  induction t1 as [|a r IH]; intros h t2; [reflexivity|].
  cbn. now rewrite IH, andb_assoc.
Qed.

Lemma checked_weaken (chk chk' : list Mutex -> Action -> bool) :
  (forall h a, chk h a = true -> chk' h a = true) ->
  forall t h, checked chk h t = true -> checked chk' h t = true.
Proof.
  intros W. induction t as [|a r IH]; intros h H; [reflexivity|].
  cbn in *. apply andb_true_iff in H as [H1 H2].
  now rewrite (W _ _ H1), (IH _ H2).
Qed.

Lemma telegram_command_rules total m s :
  checked all_rules [] (trace_of (telegram_command total m) s) = true.
Proof. destruct m as [c t ok]. run_job_case; reflexivity. Qed.

Lemma telegram_commands_rules total ms : forall s,
  checked all_rules [] (trace_of (telegram_commands total ms) s) = true.
Proof.
  induction ms as [|m rest IH]; intros s; [reflexivity|].
  cbn [telegram_commands]. rewrite trace_of_bind, checked_app.
  rewrite telegram_command_rules.
  destruct (telegram_command_disciplined total m s) as [_ ->].
  apply IH.
Qed.

Lemma job_rules total j s :
  checked all_rules [] (trace_of (run_job total j) s) = true.
Proof.
  destruct j as [l e|l e|rx_entry rx_exit| |l h t|lu rx tc ts ok|req ok ms|ms];
    cbn [run_job].
  - destruct l, e as [? ? ? ? [? ? ? ? ?] ?]. run_job_case; reflexivity.
  - destruct l, e. run_job_case; reflexivity.
  - destruct rx_entry, rx_exit; run_job_case; reflexivity.
  - run_job_case; reflexivity.
  - destruct l. run_job_case; reflexivity.
  - destruct rx as [[a b]|]; run_job_case; reflexivity.
  - destruct req; run_job_case; reflexivity.
  - unfold telegramTask_iter.
    rewrite trace_of_bind, checked_app.
    rewrite trace_of_bind, checked_app.
    change (held_after [] (trace_of (emit ABotGetUpdates) s)) with (@nil Mutex).
    rewrite telegram_commands_rules.
    destruct (telegram_commands_disciplined total ms
                (state_after (emit ABotGetUpdates) s)) as [_ ->].
    reflexivity.
Qed.

Lemma lcd_ops_app t1 t2 : lcd_ops (t1 ++ t2) = lcd_ops t1 ++ lcd_ops t2.
Proof.
  induction t1 as [|a r IH]; [reflexivity|].
  destruct a; cbn; now rewrite ?IH.
Qed.

Lemma telegram_commands_no_lcd total ms : forall s,
  lcd_ops (trace_of (telegram_commands total ms) s) = [].
Proof.
  induction ms as [|m rest IH]; intros s; [reflexivity|].
  cbn [telegram_commands]. rewrite trace_of_bind, lcd_ops_app, IH, app_nil_r.
  destruct m as [c t ok]. run_job_case; reflexivity.
Qed.





(** X5. In every pass of every worker a mutex is asked for only when the
    worker does not hold it already, and is given back only when held: no
    worker blocks on a mutex it owns, none releases one it does not own. *)
Theorem X5_no_retake_no_stray_give (total : Z) (j : Job) (s : Shared) :
  checked hygiene_rule [] (trace_of (run_job total j) s) = true.
Proof.
  apply (checked_weaken all_rules); [|apply job_rules].
  intros h a H. unfold all_rules in H.
  apply andb_true_iff in H as [H _]. now apply andb_true_iff in H as [_ H].
Qed.

(** X6. Every operation on the display made by a worker is made holding
    [lcdMutex], and only the display worker makes any. *)
Theorem X6_display_driven_under_its_lock (total : Z) (j : Job) (s : Shared) :
  checked lcd_rule [] (trace_of (run_job total j) s) = true
  /\ (is_lcd_job j = true \/ lcd_ops (trace_of (run_job total j) s) = []).
Proof.
  split.
  - apply (checked_weaken all_rules); [|apply job_rules].
    intros h a H. unfold all_rules in H. now apply andb_true_iff in H as [_ H].
  - destruct j as [l e|l e|rx_entry rx_exit| |l h t|lu rx tc ts ok|req ok ms|ms];
      cbn [run_job is_lcd_job]; [right|right|right|right|right|now left|right|right].
    + destruct l, e as [? ? ? ? [? ? ? ? ?] ?]. run_job_case; reflexivity.
    + destruct l, e. run_job_case; reflexivity.
    + destruct rx_entry, rx_exit; run_job_case; reflexivity.
    + run_job_case; reflexivity.
    + destruct l. run_job_case; reflexivity.
    + destruct req; run_job_case; reflexivity.
    + unfold telegramTask_iter.
      rewrite trace_of_bind, lcd_ops_app, trace_of_bind, lcd_ops_app.
      now rewrite telegram_commands_no_lcd.
Qed.

(** ** Indicator and sensor tasks *)

(** X7. A pass of the LED task writes the green pin and then the red pin
    with opposite levels, green high exactly when a slot is available, and
    changes no global. *)
Theorem X7_indicators_exclusive (s : Shared) :
  digital_writes (trace_of ledTask_iter s) =
    [(Config.GREEN_LED_PIN, availableSlots s >? 0);
     (Config.RED_LED_PIN, negb (availableSlots s >? 0))]
  /\ state_after ledTask_iter s = s
  /\ stores (trace_of ledTask_iter s) = [].
Proof. now repeat split. Qed.

Lemma sent_to_app q t1 t2 : sent_to q (t1 ++ t2) = sent_to q t1 ++ sent_to q t2.
Proof.
  induction t1 as [|a r IH]; [reflexivity|].
  destruct a as [| | | | |q' it| | | | | | | | | | | | | | | |]; cbn; try exact IH.
  destruct (queue_eqb q q'); cbn; now rewrite IH.
Qed.

(** One pass of the sensor task, line by line. *)
Lemma sensorTask_iter_entry l e s :
  sent_to entryQueue (trace_of (sensorTask_iter l e) s) =
    (if negb (entry_read1 e) && negb (entryDetected l)
     then [ItemEvent {| ev_type := EVENT_CAR_ENTRY; ev_value := 1 |}] else [])
  /\ entryDetected (result (sensorTask_iter l e) s) =
     (if entry_read2 e then false
      else negb (entry_read1 e) || entryDetected l)
  /\ state_after (sensorTask_iter l e) s = s.
Proof.
  destruct l as [ed xd], e as [e1 e2 x1 x2].
  destruct e1, e2, x1, x2, ed, xd; now repeat split.
Qed.

Lemma sensorTask_iter_exit l e s :
  sent_to exitQueue (trace_of (sensorTask_iter l e) s) =
    (if negb (exit_read1 e) && negb (exitDetected l)
     then [ItemEvent {| ev_type := EVENT_CAR_EXIT; ev_value := 1 |}] else [])
  /\ exitDetected (result (sensorTask_iter l e) s) =
     (if exit_read2 e then false
      else negb (exit_read1 e) || exitDetected l).
Proof.
  destruct l as [ed xd], e as [e1 e2 x1 x2].
  destruct e1, e2, x1, x2, ed, xd; now repeat split.
Qed.

Lemma result_bind {A B} (m : Task A) (k : A -> Task B) s :
  result (bind m k) s = result (k (result m s)) (state_after m s).
Proof. reflexivity. Qed.

Lemma sensorTask_held_low es : forall l s,
  forallb entry_low es = true ->
  sent_to entryQueue (trace_of (sensorTask l es) s) =
    (if entryDetected l then []
     else match es with
          | [] => []
          | _ :: _ => [ItemEvent {| ev_type := EVENT_CAR_ENTRY; ev_value := 1 |}]
          end)
  /\ entryDetected (result (sensorTask l es) s) =
     (match es with [] => entryDetected l | _ :: _ => true end).
Proof.
  induction es as [|e rest IH]; intros l s H.
  - cbn. now destruct (entryDetected l).
  - cbn [forallb] in H. apply andb_true_iff in H as [He Hr].
    unfold entry_low in He. apply andb_true_iff in He as [H1 H2].
    apply negb_true_iff in H1, H2.
    cbn [sensorTask]. rewrite trace_of_bind, sent_to_app, result_bind.
    destruct (sensorTask_iter_entry l e s) as (A & B & C).
    rewrite A, C.
    destruct (IH (result (sensorTask_iter l e) s) s Hr) as [P Q].
    split.
    + rewrite P, B, H1, H2. cbn.
      destruct (entryDetected l), rest; reflexivity.
    + rewrite Q. destruct rest; [|reflexivity].
      now rewrite B, H1, H2.
Qed.

(** X8. While the entry line reads LOW at every read, over any number of
    passes, the sensor task sends one entry event in all if it started
    unlatched and none if it started latched, and it ends latched: a car
    standing at the sensor is reported once. *)
Theorem X8_held_line_reports_once
    (l : SensorLocals) (e : SensorEnv) (es : list SensorEnv) (s : Shared) :
  forallb entry_low (e :: es) = true ->
  sent_to entryQueue (trace_of (sensorTask l (e :: es)) s) =
    (if entryDetected l then []
     else [ItemEvent {| ev_type := EVENT_CAR_ENTRY; ev_value := 1 |}])
  /\ entryDetected (result (sensorTask l (e :: es)) s) = true.
Proof. intros H. exact (sensorTask_held_low (e :: es) l s H). Qed.

Lemma X8_held_line_reports_once_witness :
  sent_to entryQueue
    (trace_of
       (sensorTask {| entryDetected := false; exitDetected := false |}
          [ {| entry_read1 := false; entry_read2 := false;
               exit_read1 := true; exit_read2 := true |};
            {| entry_read1 := false; entry_read2 := false;
               exit_read1 := true; exit_read2 := true |} ])
       (initial 4))
  = [ItemEvent {| ev_type := EVENT_CAR_ENTRY; ev_value := 1 |}].
Proof.
  apply (X8_held_line_reports_once
           {| entryDetected := false; exitDetected := false |}
           {| entry_read1 := false; entry_read2 := false;
              exit_read1 := true; exit_read2 := true |}
           [ {| entry_read1 := false; entry_read2 := false;
                exit_read1 := true; exit_read2 := true |} ]
           (initial 4)).
  reflexivity.
Defined.

(** X9. In one pass of the sensor task each line is handled on its own: an
    event of the line's kind goes to the line's queue exactly when its first
    read is LOW and its latch is clear, the latch is cleared by a HIGH second
    read and otherwise set by a LOW first read, whatever the other line
    reads; both lines can report in the same pass.  The pass changes no
    global. *)
Theorem X9_sensor_lines_independent (l : SensorLocals) (e : SensorEnv) (s : Shared) :
  sent_to entryQueue (trace_of (sensorTask_iter l e) s) =
    (if negb (entry_read1 e) && negb (entryDetected l)
     then [ItemEvent {| ev_type := EVENT_CAR_ENTRY; ev_value := 1 |}] else [])
  /\ sent_to exitQueue (trace_of (sensorTask_iter l e) s) =
     (if negb (exit_read1 e) && negb (exitDetected l)
      then [ItemEvent {| ev_type := EVENT_CAR_EXIT; ev_value := 1 |}] else [])
  /\ entryDetected (result (sensorTask_iter l e) s) =
     (if entry_read2 e then false else negb (entry_read1 e) || entryDetected l)
  /\ exitDetected (result (sensorTask_iter l e) s) =
     (if exit_read2 e then false else negb (exit_read1 e) || exitDetected l)
  /\ state_after (sensorTask_iter l e) s = s.
Proof.
  destruct (sensorTask_iter_entry l e s) as (A & B & C).
  destruct (sensorTask_iter_exit l e s) as (D & E).
  now repeat split.
Qed.

(** ** Sampler log filter *)

(** A value minus itself is zero or NaN, never above a positive threshold. *)
Lemma fsub_self_small (t c : float) :
  (c = f_half \/ c = f_two) ->
  fgt (fabs (fsub t t)) c = false.
Proof.
  intros Hc.
  assert (Hz : forall b, fgt (S754_zero b) c = false)
    by (intros b; destruct Hc as [-> | ->]; reflexivity).
  destruct t as [b|b| |b m e].
  - destruct b; apply Hz.
  - destruct b; destruct Hc as [-> | ->]; reflexivity.
  - destruct Hc as [-> | ->]; reflexivity.
  - unfold fsub, SFsub. cbv zeta. rewrite Z.sub_diag.
    cbn [binary_normalize fabs SFabs]. apply Hz.
Qed.

(** X10. For a reading with neither value NaN: the first one since the task
    started is stored and logged, and becomes the last logged pair; a
    reading equal to the last logged pair is stored again but not logged,
    and the last logged pair stays. *)
Theorem X10_repeated_reading_not_logged
    (lt lh h t : float) (s : Shared) :
  isnan h = false ->
  isnan t = false ->
  let first := dhtTask_iter {| lastTemp := lt; lastHum := lh; firstReading := true |} h t in
  let logged := {| lastTemp := t; lastHum := h; firstReading := false |} in
  let again := dhtTask_iter logged h t in
  result first s = logged
  /\ count_calls is_serial (trace_of first s) = 1%nat
  /\ result again s = logged
  /\ count_calls is_serial (trace_of again s) = 0%nat
  /\ temperature (state_after again s) = t
  /\ humidity (state_after again s) = h.
Proof.
  intros Hh Ht. cbv zeta.
  unfold dhtTask_iter, result, trace_of, state_after.
  cbn -[fgt fabs fsub f_two f_half].
  rewrite Hh, Ht. cbn -[fgt fabs fsub f_two f_half].
  rewrite (fsub_self_small t f_half) by now left.
  rewrite (fsub_self_small h f_two) by now right.
  now repeat split.
Qed.

Lemma X10_repeated_reading_not_logged_witness :
  count_calls is_serial
    (trace_of
       (dhtTask_iter
          {| lastTemp := float_of_Z 21; lastHum := float_of_Z 40; firstReading := false |}
          (float_of_Z 40) (float_of_Z 21))
       (initial 4)) = 0%nat.
Proof.
  apply (X10_repeated_reading_not_logged f_m999 f_m999 (float_of_Z 40) (float_of_Z 21)
           (initial 4)); reflexivity.
Defined.

(** ** Elapsed time on 32-bit counters *)

Lemma u32_elapsed last d :
  0 <= last < 2 ^ 32 -> 0 <= d < 2 ^ 32 ->
  u32_sub (wrap_u32 (last + d)) last = d.
Proof.
  intros Hl Hd. unfold u32_sub, wrap_u32.
  rewrite Zminus_mod_idemp_l.
  replace (last + d - last) with d by lia.
  now apply Z.mod_small.
Qed.

Lemma wrap_u32_range z : 0 <= wrap_u32 z < 2 ^ 32.
Proof. unfold wrap_u32. apply Z.mod_pos_bound. lia. Qed.

(** ** Display task *)

(** A pass of the display task with no directive waiting. *)
Lemma lcdTask_iter_no_directive
    (total last d tick_set : Z) (time_ok : bool) (s : Shared) :
  0 <= last < 2 ^ 32 ->
  0 <= d < 2 ^ 32 ->
  let pass := lcdTask_iter total last None (last + d) tick_set time_ok in
  if d <? 500 then
    lcd_ops (trace_of pass s) = [] /\ result pass s = last
  else
    lcd_ops (trace_of pass s) =
      [LcdClear; LcdSetCursor 0 0;
       LcdPrintStr (if time_ok then currentTime s else EmptyString);
       LcdPrintStr " "; LcdPrintInt (availableSlots s); LcdPrintStr "/";
       LcdPrintInt total; LcdSetCursor 0 1; LcdPrintStr "Gate:";
       LcdPrintStr (gateStatus s)]
    /\ result pass s = wrap_u32 tick_set.
Proof.
  intros Hl Hd. cbv zeta.
  unfold lcdTask_iter, lcd_default, result, trace_of.
  cbn -[u32_sub wrap_u32].
  rewrite (u32_elapsed last d Hl Hd). unfold updateInterval.
  destruct (Z.ltb_spec d 500) as [H|H].
  - destruct (Z.geb_spec d 500); [lia|]. now split.
  - destruct (Z.geb_spec d 500); [|lia].
    destruct time_ok; now split.
Qed.

(** X11. With no directive waiting, a pass of the display task renders the
    default screen exactly when at least 500 ticks have gone by since
    [lastUpdate], counted modulo 2^32 and so also across a wrap of the tick
    counter; it then shows the cached time (nothing if [timeMutex] was not
    obtained in 50 ms), the slot count over the total, and the gate status,
    and restarts the interval.  Otherwise it touches neither the display nor
    [lastUpdate]. *)
Theorem X11_default_screen_every_500_ticks
    (total last d tick_set : Z) (time_ok : bool) (s : Shared) :
  0 <= last < 2 ^ 32 ->
  0 <= d < 2 ^ 32 ->
  let pass := lcdTask_iter total last None (last + d) tick_set time_ok in
  if d <? 500 then
    lcd_ops (trace_of pass s) = [] /\ result pass s = last
  else
    lcd_ops (trace_of pass s) =
      [LcdClear; LcdSetCursor 0 0;
       LcdPrintStr (if time_ok then currentTime s else EmptyString);
       LcdPrintStr " "; LcdPrintInt (availableSlots s); LcdPrintStr "/";
       LcdPrintInt total; LcdSetCursor 0 1; LcdPrintStr "Gate:";
       LcdPrintStr (gateStatus s)]
    /\ result pass s = wrap_u32 tick_set.
Proof. exact (lcdTask_iter_no_directive total last d tick_set time_ok s). Qed.

Lemma X11_default_screen_every_500_ticks_witness :
  lcd_ops (trace_of (lcdTask_iter 4 4294967000 None (4294967000 + 499) 7 true)
             (initial 4)) = [].
Proof.
  apply (X11_default_screen_every_500_ticks 4 4294967000 499 7 true (initial 4)); lia.
Defined.

(** X12. A directive taken from the display queue is rendered whatever the
    tick count, line 1 on row 0 and line 2 on row 1, and restarts the
    interval: on the following pass, fewer than 500 ticks later and with no
    new directive, the display is left untouched, so the directive stays
    visible. *)
Theorem X12_directive_stays_500_ticks
    (total last tick_cond tick_set d tick_set2 : Z) (msg : LCDMessage)
    (time_ok : bool) (s : Shared) :
  0 <= d < 500 ->
  let shown := lcdTask_iter total last (Some msg) tick_cond tick_set time_ok in
  let next := lcdTask_iter total (result shown s) None
                (wrap_u32 tick_set + d) tick_set2 time_ok in
  lcd_ops (trace_of shown s) =
    [LcdClear; LcdSetCursor 0 0; LcdPrintStr (line1 msg);
     LcdSetCursor 0 1; LcdPrintStr (line2 msg)]
  /\ result shown s = wrap_u32 tick_set
  /\ lcd_ops (trace_of next (state_after shown s)) = []
  /\ result next (state_after shown s) = wrap_u32 tick_set.
Proof.
  intros Hd. cbv zeta.
  assert (A : result (lcdTask_iter total last (Some msg) tick_cond tick_set time_ok) s
              = wrap_u32 tick_set) by reflexivity.
  rewrite A.
  split; [reflexivity|]. split; [reflexivity|].
  pose proof (X := lcdTask_iter_no_directive total (wrap_u32 tick_set) d
                     tick_set2 time_ok
                     (state_after (lcdTask_iter total last (Some msg) tick_cond
                                     tick_set time_ok) s)
                     (wrap_u32_range tick_set)).
  cbv zeta in X.
  destruct (Z.ltb_spec d 500); [|lia].
  apply X. lia.
Qed.

Lemma X12_directive_stays_500_ticks_witness :
  lcd_ops
    (trace_of
       (lcdTask_iter 4 0 (Some {| line1 := "Gate: OPEN"; line2 := "Entering..." |})
          120 130 true)
       (initial 4))
  = [LcdClear; LcdSetCursor 0 0; LcdPrintStr "Gate: OPEN";
     LcdSetCursor 0 1; LcdPrintStr "Entering..."].
Proof.
  apply (X12_directive_stays_500_ticks 4 0 120 130 200 340
           {| line1 := "Gate: OPEN"; line2 := "Entering..." |} true (initial 4)).
  lia.
Defined.

(** ** Connectivity task *)

(** Split on a test that contains no other test. *)
Ltac break_inner :=
  match goal with
  | |- context [if ?c then _ else _] =>
      lazymatch c with
      | context [if _ then _ else _] => fail
      | context [match _ with Some _ => _ | None => _ end] => fail
      | _ => destruct c eqn:?
      end
  | |- context [match ?c with Some _ => _ | None => _ end] =>
      lazymatch c with
      | context [if _ then _ else _] => fail
      | context [match _ with Some _ => _ | None => _ end] => fail
      | _ => destruct c eqn:?
      end
  end.

(** X14. A pass of the wifi task checks connectivity when 10000 ms have gone
    by since the last check, modulo 2^32.  It then sets [wifiConnected] to
    the link state and [internetConnected] to whether the link is up, is
    still up when the probe starts, and the probe answers 204; the probe is
    sent only in the first two of these cases.  In any other pass both
    flags are left alone and no probe is sent. *)
Theorem X14_connectivity_check (l : WifiLocals) (e : WifiEnv) (s : Shared) :
  let s' := state_after (wifiTask_iter l e) s in
  wifiConnected s' = (if check_due l e then w_link e else wifiConnected s)
  /\ internetConnected s' =
     (if check_due l e
      then w_link e && w_probe_link e && (w_probe_code e =? 204)
      else internetConnected s)
  /\ count_calls is_http_probe (trace_of (wifiTask_iter l e) s) =
     (if check_due l e && w_link e && w_probe_link e then 1%nat else 0%nat)
  /\ lastWiFiCheck (result (wifiTask_iter l e) s) =
     (if check_due l e then wrap_u32 (w_elapsed_ms e) else lastWiFiCheck l).
Proof.
  destruct l as [ltu lwc], e as [ms link plink code [nt nd al at_ ad] tok],
    s as [av gs te hu ct cd wc ic].
  unfold check_due. cbn [w_elapsed_ms lastWiFiCheck w_link w_probe_link w_probe_code].
  cbv zeta.
  destruct (u32_sub (wrap_u32 ms) lwc >=? WIFI_CHECK_INTERVAL) eqn:Hc;
    destruct link, plink;
    unfold wifiTask_iter, checkInternetConnection, getCurrentTime, getCurrentDate,
      getTimeFromAPI, getDateFromAPI, state_after, trace_of, result, when;
    cbn -[u32_sub wrap_u32 WIFI_CHECK_INTERVAL TIME_UPDATE_INTERVAL];
    rewrite ?Hc; cbn -[u32_sub wrap_u32 WIFI_CHECK_INTERVAL TIME_UPDATE_INTERVAL];
    repeat (break_inner;
            cbn -[u32_sub wrap_u32 WIFI_CHECK_INTERVAL TIME_UPDATE_INTERVAL]);
    repeat split; reflexivity.
Qed.

Ltac run_wifi :=
  unfold wifiTask_iter, checkInternetConnection, getCurrentTime, getCurrentDate,
    getTimeFromAPI, getDateFromAPI, state_after, trace_of, result, when;
  cbn -[u32_sub wrap_u32 WIFI_CHECK_INTERVAL TIME_UPDATE_INTERVAL];
  repeat (break_inner;
          cbn -[u32_sub wrap_u32 WIFI_CHECK_INTERVAL TIME_UPDATE_INTERVAL]).

(** X15. The wifi task calls [WiFi.reconnect()] only in a pass that checks
    connectivity and finds the link down while [wifiConnected] was still
    set: once on the loss of the link, and not again while the flag stays
    clear. *)
Theorem X15_reconnect_on_link_loss_only (l : WifiLocals) (e : WifiEnv) (s : Shared) :
  count_calls is_reconnect (trace_of (wifiTask_iter l e) s) =
  (if check_due l e && wifiConnected s && negb (w_link e) then 1%nat else 0%nat).
Proof.
  destruct l as [ltu lwc], e as [ms link plink code [nt nd al at_ ad] tok],
    s as [av gs te hu ct cd wc ic].
  unfold check_due. cbn [w_elapsed_ms lastWiFiCheck w_link wifiConnected].
  destruct (u32_sub (wrap_u32 ms) lwc >=? WIFI_CHECK_INTERVAL) eqn:Hc;
    destruct link, wc; cbn [andb negb];
    run_wifi; try rewrite Hc in *; try discriminate; reflexivity.
Qed.

(** X16. The cached time and date change only in a pass of the wifi task in
    which 5000 ms have gone by since the last update, [wifiConnected] is set
    and [timeMutex] is obtained within 100 ms; they then become what the
    time sources give: the NTP value, else the value of the time API if the
    link is up and it answers, else "00:00:00" and "2024/01/01".
    [lastTimeUpdate] moves to the current time whenever the 5000 ms have
    gone by, stored or not, so an update that was missed is not tried again
    before the next interval. *)
Theorem X16_time_cache_update (l : WifiLocals) (e : WifiEnv) (s : Shared) :
  let s' := state_after (wifiTask_iter l e) s in
  let stored := time_due l e && wifiConnected s' && w_time_ok e in
  currentTime s' = (if stored then clock_time (w_clock e) else currentTime s)
  /\ currentDate s' = (if stored then clock_date (w_clock e) else currentDate s)
  /\ lastTimeUpdate (result (wifiTask_iter l e) s) =
     (if time_due l e then wrap_u32 (w_elapsed_ms e) else lastTimeUpdate l).
Proof.
  destruct l as [ltu lwc], e as [ms link plink code [nt nd al at_ ad] tok],
    s as [av gs te hu ct cd wc ic].
  unfold time_due, clock_time, clock_date.
  cbn [w_elapsed_ms lastTimeUpdate w_time_ok w_clock ntp_time ntp_date api_link
       api_time api_date].
  cbv zeta.
  destruct (u32_sub (wrap_u32 ms) ltu >=? TIME_UPDATE_INTERVAL) eqn:Ht;
    destruct (u32_sub (wrap_u32 ms) lwc >=? WIFI_CHECK_INTERVAL) eqn:Hc;
    destruct link, wc, tok, nt, nd, al, at_, ad;
    unfold wifiTask_iter, checkInternetConnection, getCurrentTime, getCurrentDate,
      getTimeFromAPI, getDateFromAPI, state_after, trace_of, result, when;
    cbn -[u32_sub wrap_u32 WIFI_CHECK_INTERVAL TIME_UPDATE_INTERVAL];
    rewrite ?Ht, ?Hc;
    cbn -[u32_sub wrap_u32 WIFI_CHECK_INTERVAL TIME_UPDATE_INTERVAL];
    repeat (break_inner;
            cbn -[u32_sub wrap_u32 WIFI_CHECK_INTERVAL TIME_UPDATE_INTERVAL]);
    repeat split; reflexivity.
Qed.

(** ** Snapshot, web and bot *)

(** X17. The snapshot [handleData] sends reports the slot count as read and
    the occupied count as the total less that count; with the count within
    its bounds the two add up to the total and the occupied count lies
    between 0 and the total.  One response is sent, with code 200 and type
    application/json, and no global is changed. *)
Theorem X17_snapshot_counts_add_up
    (total : Z) (time_ok : bool) (elapsed_ms : Z) (s : Shared) :
  total <= INT_MAX ->
  0 <= availableSlots s <= total ->
  let t := trace_of (handleData total time_ok elapsed_ms) s in
  snapshot_field "available" t = Some (availableSlots s)
  /\ snapshot_field "occupied" t = Some (total - availableSlots s)
  /\ 0 <= total - availableSlots s <= total
  /\ responses t = [(200, "application/json")]
  /\ state_after (handleData total time_ok elapsed_ms) s = s.
Proof.
  intros Ht Hs. cbv zeta.
  assert (W : wrap_int (total - availableSlots s) = total - availableSlots s)
    by (apply wrap_int_id; unfold INT_MIN, INT_MAX in *; lia).
  destruct time_ok;
    (split; [reflexivity|]); (split; [cbn; now rewrite W|]);
    (split; [lia|]); now split.
Qed.

Lemma X17_snapshot_counts_add_up_witness :
  snapshot_field "occupied"
    (trace_of (handleData 4 true 1000) (set_availableSlots 1 (initial 4))) = Some 3.
Proof.
  apply (X17_snapshot_counts_add_up 4 true 1000 (set_availableSlots 1 (initial 4))).
  - unfold INT_MAX. lia.
  - cbn. lia.
Defined.

(** X18. The snapshot always carries the keys available, occupied, gate,
    temperature, humidity, wifi, internet and uptime, in that order; the
    keys time and date are present exactly when [timeMutex] was obtained
    within 50 ms, and are left out otherwise. *)
Theorem X18_snapshot_keys (total : Z) (time_ok : bool) (elapsed_ms : Z) (s : Shared) :
  snapshot_keys (trace_of (handleData total time_ok elapsed_ms) s) =
    ["available"; "occupied"; "gate"; "temperature"; "humidity"]
    ++ (if time_ok then ["time"; "date"] else [])
    ++ ["wifi"; "internet"; "uptime"].
Proof. destruct time_ok; reflexivity. Qed.

(** X19. A pass of the sensor, LED, display, web or telegram worker leaves
    every global as it was and makes no store. *)
Theorem X19_reader_workers_change_nothing (total : Z) (j : Job) (s : Shared) :
  is_reader_job j = true ->
  state_after (run_job total j) s = s
  /\ stores (trace_of (run_job total j) s) = [].
Proof.
  intros Hj.
  destruct j as [l e|l e|rx_entry rx_exit| |l h t|lu rx tc ts ok|req ok ms|ms];
    try discriminate Hj; cbn [run_job].
  - destruct l, e. run_job_case; split; reflexivity.
  - run_job_case; split; reflexivity.
  - destruct rx as [[a b]|]; run_job_case; split; reflexivity.
  - destruct req; run_job_case; split; reflexivity.
  - apply telegramTask_iter_frame.
Qed.

Lemma X19_reader_workers_change_nothing_witness :
  state_after (run_job 4 (JobWeb (Some "/data") true 0)) (initial 4) = initial 4.
Proof.
  apply (X19_reader_workers_change_nothing 4 (JobWeb (Some "/data") true 0) (initial 4)).
  reflexivity.
Defined.

(** X20. The bot answers a message with exactly one reply, sent to the chat
    the message came from, when its text is /start, /status, /time, /temp
    or /all, and with no reply for any other text. *)
Theorem X20_one_reply_to_known_commands (total : Z) (m : TgMessage) (s : Shared) :
  map fst (bot_replies (trace_of (telegram_command total m) s)) =
  (if known_command (text m) then [chat_id m] else []).
Proof.
  destruct m as [c t ok]. unfold known_command. cbn [text chat_id].
  destruct (String.eqb t "/start") eqn:E1;
    [now unfold telegram_command, trace_of; cbn; rewrite E1|].
  destruct (String.eqb t "/status") eqn:E2;
    [now unfold telegram_command, trace_of; cbn; rewrite E1, E2|].
  destruct (String.eqb t "/time") eqn:E3;
    [unfold telegram_command, trace_of; cbn; rewrite E1, E2, E3; now destruct ok|].
  destruct (String.eqb t "/temp") eqn:E4;
    [now unfold telegram_command, trace_of; cbn; rewrite E1, E2, E3, E4|].
  destruct (String.eqb t "/all") eqn:E5;
    unfold telegram_command, trace_of; cbn; rewrite E1, E2, E3, E4, E5;
    [now destruct ok | reflexivity].
Qed.

(** X21. [formatUptime] splits a whole number of seconds into hours,
    minutes below 60 and seconds below 60 that add up to it again. *)
Theorem X21_formatUptime_adds_up (sec : Z) :
  0 <= sec ->
  exists h m s : Z,
    piece_numbers (formatUptime sec) = [h; m; s]
    /\ 3600 * h + 60 * m + s = sec
    /\ 0 <= h /\ 0 <= m < 60 /\ 0 <= s < 60.
Proof.
  intros H.
  exists (sec / 3600), ((sec mod 3600) / 60), (sec mod 60).
  split; [reflexivity|].
  pose proof (Z.div_mod sec 3600 ltac:(lia)).
  pose proof (Z.mod_pos_bound sec 3600 ltac:(lia)).
  pose proof (Z.div_mod (sec mod 3600) 60 ltac:(lia)).
  pose proof (Z.mod_pos_bound (sec mod 3600) 60 ltac:(lia)).
  pose proof (Z.mod_pos_bound sec 60 ltac:(lia)).
  assert (E : (sec mod 3600) mod 60 = sec mod 60).
  { apply Z.mod_mod_divide. now exists 60. }
  assert (0 <= sec / 3600) by (apply Z.div_pos; lia).
  assert (0 <= (sec mod 3600) / 60 < 60).
  { split; [apply Z.div_pos; lia|]. apply Z.div_lt_upper_bound; lia. }
  repeat split; try lia.
Qed.

Lemma X21_formatUptime_adds_up_witness :
  exists h m s : Z,
    piece_numbers (formatUptime 4294967) = [h; m; s]
    /\ 3600 * h + 60 * m + s = 4294967
    /\ 0 <= h /\ 0 <= m < 60 /\ 0 <= s < 60.
Proof. apply (X21_formatUptime_adds_up 4294967). lia. Defined.

(** ** The connection loop of setup *)

Lemma count_calls_app sel t1 t2 :
  count_calls sel (t1 ++ t2) = (count_calls sel t1 + count_calls sel t2)%nat.
Proof. unfold count_calls. now rewrite filter_app, length_app. Qed.

Lemma setup_wifi_wait_runs status fuel : forall k attempts s,
  0 <= attempts <= 20 ->
  (Z.to_nat (21 - attempts) <= fuel)%nat ->
  exists n : nat,
    result (setup_wifi_wait fuel status k attempts) s = Some (attempts + Z.of_nat n)
    /\ attempts + Z.of_nat n <= 20
    /\ count_calls is_delay_500 (trace_of (setup_wifi_wait fuel status k attempts) s) = n
    /\ (forall i, (i < n)%nat -> status (k + i)%nat = false)
    /\ (attempts + Z.of_nat n < 20 -> status (k + n)%nat = true)
    /\ state_after (setup_wifi_wait fuel status k attempts) s = s.
Proof.
  induction fuel as [|f IH]; intros k attempts s Ha Hf; [lia|].
  cbn [setup_wifi_wait].
  rewrite result_bind, trace_of_bind, state_after_bind, count_calls_app.
  change (state_after (emit AWifiStatus) s) with s.
  change (count_calls is_delay_500 (trace_of (emit AWifiStatus) s)) with 0%nat.
  destruct (status k) eqn:Hk; cbn [negb andb].
  - exists 0%nat. rewrite Nat.add_0_r, Z.add_0_r.
    repeat split; try lia. intros _. now rewrite Nat.add_0_r.
  - destruct (Z.ltb_spec attempts 20) as [Hlt|Hge].
    + rewrite wrap_int_id by (unfold INT_MIN, INT_MAX; lia).
      rewrite result_bind, trace_of_bind, state_after_bind, count_calls_app.
      rewrite result_bind, trace_of_bind, state_after_bind, count_calls_app.
      change (state_after (vTaskDelay 500) s) with s.
      change (state_after (Serial_print "." []) s) with s.
      change (count_calls is_delay_500 (trace_of (vTaskDelay 500) s)) with 1%nat.
      change (count_calls is_delay_500 (trace_of (Serial_print "." []) s)) with 0%nat.
      destruct (IH (S k) (attempts + 1) s ltac:(lia) ltac:(lia))
        as (n & R & B & C & D & E & F).
      exists (S n). rewrite R, C, F.
      repeat split; try lia.
      * f_equal. lia.
      * intros i Hi. destruct i as [|i]; [now rewrite Nat.add_0_r|].
        replace (k + S i)%nat with (S k + i)%nat by lia. apply D. lia.
      * intros Hn. replace (k + S n)%nat with (S k + n)%nat by lia. apply E. lia.
    + exists 0%nat. rewrite Nat.add_0_r, Z.add_0_r.
      repeat split; try lia.
Qed.

(** X22. The loop of [setup] that waits for the link always ends: it polls
    [WiFi.status()] until the link is up or 20 waits of 500 ms have been
    made, so it waits 10 s at most; 21 passes are enough for any sequence of
    answers.  The count it ends with is the number of waits made, every poll
    before the last answered not connected, and if it ends before the 20th
    wait the last poll answered connected.  It changes no global. *)
Theorem X22_setup_wait_is_bounded (status : nat -> bool) (s : Shared) :
  exists n : nat,
    result (setup_wifi_wait 21 status 0 0) s = Some (Z.of_nat n)
    /\ (n <= 20)%nat
    /\ count_calls is_delay_500 (trace_of (setup_wifi_wait 21 status 0 0) s) = n
    /\ (forall i, (i < n)%nat -> status i = false)
    /\ ((n < 20)%nat -> status n = true)
    /\ state_after (setup_wifi_wait 21 status 0 0) s = s.
Proof.
  destruct (setup_wifi_wait_runs status 21 0%nat 0 s ltac:(lia) ltac:(cbn; lia))
    as (n & R & B & C & D & E & F).
  exists n. cbn [Z.add Nat.add] in *.
  repeat split; try assumption; try lia.
  intros Hn. apply E. lia.
Qed.

(** ** Writers *)

(** X23. Each group of globals is stored by one worker only: the slot count
    and the gate status by the gate task, temperature and humidity by the
    sampler, the cached time and date and the connectivity flags by the wifi
    task.  A pass of any other worker makes no store into the group. *)
Theorem X23_one_writer_per_group (total : Z) (gr : Group) (j : Job) (s : Shared) :
  writer_of gr j = false ->
  stores_in gr (trace_of (run_job total j) s) = [].
Proof. exact (single_writer total gr j s). Qed.

Lemma X23_one_writer_per_group_witness :
  stores_in Capacity
    (trace_of (run_job 4 (JobDht dht_locals0 (float_of_Z 40) (float_of_Z 21)))
       (initial 4)) = [].
Proof.
  apply (X23_one_writer_per_group 4 Capacity
           (JobDht dht_locals0 (float_of_Z 40) (float_of_Z 21)) (initial 4)).
  reflexivity.
Defined.

(** ** Guarded groups *)

(** X24. In every pass of every worker, each load and store of the slot
    count is made holding [slotsMutex], of the gate status holding
    [gateStatusMutex], of temperature and humidity holding [dhtMutex], and of
    the cached time and date holding [timeMutex]; where the take of
    [timeMutex] times out, the time and date are not touched. *)
Theorem X24_four_groups_guarded (total : Z) (j : Job) (s : Shared) :
  guarded_by Capacity slotsMutex (trace_of (run_job total j) s) = true
  /\ guarded_by Phase gateStatusMutex (trace_of (run_job total j) s) = true
  /\ guarded_by Environment dhtMutex (trace_of (run_job total j) s) = true
  /\ guarded_by Clock timeMutex (trace_of (run_job total j) s) = true.
Proof. exact (groups_guarded total j s). Qed.
